(** * The column profiler [num_variable_analysis] of [src/eda_tools.py]

    The module has one function.  It draws a figure of two or three panels
    for one column of a table, prints descriptive text, and returns the
    Pearson and Spearman coefficients when the target is numeric and differs
    from the column.

    The embedding follows the function block by block and statement by
    statement:
    - the tables the function receives by reference live in a store
      ([frames]); pyplot's open figures and the output stream are the two
      other components of the [world];
    - a statement is a computation [M A]: it maps a world to an outcome
      (an exception or a value) and the world it leaves behind, so a raise
      keeps the effects that happened before it, as in Python;
    - the entries of a column and the reductions the function delegates to
      pandas ([min], [max], [unique], [corr], [isna]) are the fields of the
      class [Lib], together with the kind of backend pyplot runs on, and
      every theorem holds for all of them.  A reduction may raise; [min]
      and [max] give back a numpy scalar, a 64-bit integer or a binary64
      float ([PrimFloat.float]), and line 70 subtracts in that type;
    - text is kept as the fragments of the f-strings; a figure is kept as
      its axes, each with the plotting calls made on it, in order, and with
      the limits, labels and titles that were set on it;
    - [plt.ylim] refuses limits that are NaN or infinite and widens limits
      that coincide, as matplotlib does; [plt.show] renders and closes the
      open figures on an inline backend and does nothing on a backend that
      cannot show; seaborn labels the value axis with the name of the
      column; a coefficient of [DataFrame.corr] may raise;
    - a plotting call of seaborn is described where it returns: which
      values of a column, of [bins] or of [color] seaborn rejects is not
      part of the development.  The statements about the figure and the
      report are therefore about calls that return, and those about a
      raise give the world the call leaves behind.  [display] is the
      IPython builtin. *)

From Stdlib Require Import Floats String Ascii List ZArith DecimalString Bool Lia.
From stdpp Require Import gmap strings list.

Local Open Scope string_scope.
Local Open Scope list_scope.

(* The decimal literals of the source and of matplotlib denote, as in
   Python, the nearest binary64 values. *)
Set Warnings "-inexact-float".

(** ** Values *)

Definition nl : string := String (ascii_of_nat 10) EmptyString.

(** [str(n)] for a count. *)
Definition show_nat (n : nat) : string :=
  NilEmpty.string_of_uint (Nat.to_uint n).

Inductive corr_method := Pearson | Spearman.

Inductive exn :=
| AssertionError (msg : string)
| KeyError (key : string)
| TypeError (msg : string)
| AttributeError (msg : string)
| IndexingError (msg : string)
| ValueError (msg : string).

(** *** numpy scalars

    [Series.min()] and [Series.max()] give back a scalar of the type of the
    column: [numpy.int64] for a column of integers, [numpy.float64]
    otherwise. *)
Inductive scalar :=
| Int64 (z : Z)
| Float64 (f : float).

(** Arithmetic on 64-bit integers wraps around. *)
Definition wrap64 (z : Z) : Z := ((z + 2 ^ 63) mod 2 ^ 64 - 2 ^ 63)%Z.

(** The binary64 nearest to a 64-bit integer. *)
Definition float_of_int64 (z : Z) : float :=
  let magnitude (n : Z) :=
    if (n =? 2 ^ 63)%Z then 0x1p63%float
    else PrimFloat.of_uint63 (Uint63.of_Z n) in
  if (z <? 0)%Z then (- magnitude (- z)%Z)%float else magnitude z.

Definition to_float (s : scalar) : float :=
  match s with
  | Int64 z => float_of_int64 z
  | Float64 f => f
  end.

(** [a - b]: two integers are subtracted as integers, anything else as
    floats. *)
Definition np_sub (a b : scalar) : scalar :=
  match a, b with
  | Int64 x, Int64 y => Int64 (wrap64 (x - y))
  | _, _ => Float64 (to_float a - to_float b)
  end.

(** *** The session *)

(** The backend pyplot runs on: one that renders into the output of the
    session, as in a notebook, or one that cannot show a figure. *)
Inductive backend := Inline | Agg.

(** What the function leaves to pandas and to the session. *)
Class Lib := {
  Cell : Type;                                   (* one entry of a column *)
  isna : Cell -> bool;                           (* [pandas.isna] on an entry *)
  cell_eq : Cell -> Cell -> bool;                (* elementwise [==] *)
  series_min : list Cell -> exn + scalar;        (* [Series.min()] *)
  series_max : list Cell -> exn + scalar;        (* [Series.max()] *)
  series_unique : list Cell -> list Cell;        (* [Series.unique()] *)
  coefficient : corr_method -> list (Cell * Cell) -> exn + float;
    (* the coefficient [DataFrame.corr(method)] computes from the rows of
       two columns that are complete *)
  pyplot_backend : backend
}.

Inductive bins_arg :=
| BinCount (n : Z)
| BinEdges (edges : list float).

Inductive color_arg :=
| ColorName (name : string)
| ColorSeq (channels : list float).

(** The optional [data_info] argument: nothing, a table indexed by column
    name, or an object of another shape. *)
Definition info_row := list (string * string).

Inductive info_arg :=
| InfoNone
| InfoFrame (rows : gmap string info_row)
| InfoSeries (entries : gmap string string)
| InfoOther (type_name : string).

Section Profiler.

Context `{L : Lib}.

Definition Series := list Cell.
Definition ref := positive.

(** Text is kept as the fragments of the f-string that built it. *)
Inductive frag :=
| Lit (s : string)
| Num3g (x : float)          (* [{x:.3g}] *)
| Val (c : Cell).            (* [{c}] *)

Definition text := list frag.

(** ** Figures *)

(** A plotting call with its arguments: what the library was asked to
    plot.  What it makes of the values is the library's: seaborn leaves out
    the missing ones, and draws no density curve from fewer than two
    distinct values. *)
Inductive plot :=
| HistPlot (values : Series) (bins : bins_arg) (kde : bool) (color : color_arg)
| BoxenPlot (x : option Series) (y : Series) (orient : string) (color : option color_arg)
| LinePlot (x y : Series) (fmt : string) (markersize : Z) (edge face : color_arg)
| KdePlot (values : Series) (vertical : bool) (label : text).

Record axes := mkAxes {
  geometry : nat * nat * nat;          (* rows, columns, 1-based position *)
  shares_y : bool;
  plots : list plot;                   (* the plotting calls, oldest first *)
  ylim : option (float * float);       (* the limits of the y axis, once set *)
  xticks_rotation : option Z;
  ylabel : option string;
  title : option (text * Z);
  legend : option Z
}.

Record figure := mkFigure {
  figsize : option (Z * Z);
  panels : list axes;
  current : nat                        (* position of the current axes in [panels] *)
}.

Inductive rich :=
| DescribeTable (col : Series)                   (* [pd.DataFrame(col.describe()).T] *)
| InfoTable (item : string) (row : info_row).    (* [pd.DataFrame(data_info.loc[item, :])] *)

Inductive out_item :=
| Text (t : text)
| Display (o : rich)
| Rendered (f : figure).

(** ** The world and the computations over it *)

Record world := mkWorld {
  frames : ref -> gmap string Series;  (* the tables, by reference *)
  figures : list figure;               (* pyplot's open figures, current first *)
  output : list out_item               (* the output stream, oldest first *)
}.

Definition M (A : Type) : Type := world -> (exn + A) * world.

Definition ret {A} (a : A) : M A := fun w => (inr a, w).

Definition raise {A} (e : exn) : M A := fun w => (inl e, w).

Definition bind {A B} (m : M A) (k : A -> M B) : M B :=
  fun w => match m w with
           | (inr a, w') => k a w'
           | (inl e, w') => (inl e, w')
           end.

(** [try: body  except: handler] with a bare [except]. *)
Definition try_except {A} (body : M A) (handler : exn -> M A) : M A :=
  fun w => match body w with
           | (inr a, w') => (inr a, w')
           | (inl e, w') => handler e w'
           end.

(** [for x in xs: body x] *)
Fixpoint for_each {A} (xs : list A) (body : A -> M unit) : M unit :=
  match xs with
  | [] => ret tt
  | x :: xs' => bind (body x) (fun _ => for_each xs' body)
  end.

Definition pass : M unit := ret tt.

End Profiler.

Declare Scope py_scope.
Delimit Scope py_scope with py.
Notation "x <- m ;; k" := (bind m (fun x => k))
  (at level 100, m at next level, right associativity) : py_scope.
Notation "m ;; k" := (bind m (fun _ => k))
  (at level 100, right associativity) : py_scope.

(** ** pandas, pyplot, seaborn and the builtins, as far as the function uses them *)

Section Library.

Context `{L : Lib}.

Local Open Scope py_scope.

Definition lift {A} (r : exn + A) : M A := fun w => (r, w).

Definition modify_figures (f : list figure -> list figure) : M unit :=
  fun w => (inr tt, mkWorld (frames w) (f (figures w)) (output w)).

Definition write (o : out_item) : M unit :=
  fun w => (inr tt, mkWorld (frames w) (figures w) (output w ++ [o])).

(** *** Tables *)

Definition deref (df : ref) : M (gmap string Series) :=
  fun w => (inr (frames w df), w).

(** [d[key]] *)
Definition frame_getitem (d : gmap string Series) (key : string) : exn + Series :=
  match d !! key with
  | Some col => inr col
  | None => inl (KeyError key)
  end.

Definition df_getitem (df : ref) (key : string) : M Series :=
  d <- deref df ;; lift (frame_getitem d key).

(** [df[key] = col], the statement that changes a table in place.  The
    function has none; it is here to show what the store allows. *)
Definition df_setitem (df : ref) (key : string) (col : Series) : M unit :=
  fun w =>
    (inr tt,
     mkWorld (fun r => if Pos.eqb r df then <[key := col]> (frames w r) else frames w r)
             (figures w) (output w)).

(** [col == v] *)
Definition series_eq (col : Series) (v : Cell) : list bool :=
  map (fun c => cell_eq c v) col.

Fixpoint select_rows (mask : list bool) (col : Series) : Series :=
  match mask, col with
  | b :: mask', c :: col' =>
      if b then c :: select_rows mask' col' else select_rows mask' col'
  | _, _ => []
  end.

(** [d[mask]], a new table, and its [len]. *)
Definition frame_mask (d : gmap string Series) (mask : list bool) : gmap string Series :=
  select_rows mask <$> d.

Definition mask_len (mask : list bool) : nat :=
  length (List.filter (fun b => b) mask).

(** [col.isna().sum()] *)
Definition isna_sum (col : Series) : nat :=
  length (List.filter isna col).

(** The rows of two columns in which neither entry is missing. *)
Definition complete_pairs (x y : Series) : list (Cell * Cell) :=
  List.filter (fun p => negb (isna (fst p)) && negb (isna (snd p))) (combine x y).

(** [df[[a, b]].corr(method=m).loc[a, b]]: the coefficient of the two
    columns over their complete rows; computing it may raise. *)
Definition frame_corr (m : corr_method) (df : ref) (a b : string) : M float :=
  x <- df_getitem df a ;;
  y <- df_getitem df b ;;
  lift (coefficient m (complete_pairs x y)).

(** [data_info.loc[item, :]] *)
Definition info_loc (data_info : info_arg) (item : string) : exn + info_row :=
  match data_info with
  | InfoNone => inl (AttributeError "'NoneType' object has no attribute 'loc'")
  | InfoFrame rows =>
      match rows !! item with
      | Some r => inr r
      | None => inl (KeyError item)
      end
  | InfoSeries _ => inl (IndexingError "Too many indexers")
  | InfoOther ty => inl (AttributeError ("'" +:+ ty +:+ "' object has no attribute 'loc'"))
  end.

(** [descr_dict[item]] *)
Definition dict_getitem (d : option (gmap string string)) (key : string) : exn + string :=
  match d with
  | None => inl (TypeError "'NoneType' object is not subscriptable")
  | Some m =>
      match m !! key with
      | Some v => inr v
      | None => inl (KeyError key)
      end
  end.

(** *** Builtins *)

Definition py_assert (cond : bool) (msg : string) : M unit :=
  if cond then ret tt else raise (AssertionError msg).

Fixpoint sep_join (args : list text) : text :=
  match args with
  | [] => []
  | [t] => t
  | t :: rest => t ++ Lit " " :: sep_join rest
  end.

(** [print(a, b, ...)]: the arguments separated by a space, then a newline. *)
Definition py_print (args : list text) : M unit :=
  write (Text (sep_join args ++ [Lit nl])).

Definition display (o : rich) : M unit := write (Display o).

(** *** pyplot *)

Definition empty_axes (g : nat * nat * nat) (sharey : bool) : axes :=
  mkAxes g sharey [] None None None None None.

Definition add_plot (a : plot) (ax : axes) : axes :=
  mkAxes (geometry ax) (shares_y ax) (plots ax ++ [a]) (ylim ax)
         (xticks_rotation ax) (ylabel ax) (title ax) (legend ax).

Definition set_ylim (lim : float * float) (ax : axes) : axes :=
  mkAxes (geometry ax) (shares_y ax) (plots ax) (Some lim)
         (xticks_rotation ax) (ylabel ax) (title ax) (legend ax).

Definition set_xticks_rotation (r : Z) (ax : axes) : axes :=
  mkAxes (geometry ax) (shares_y ax) (plots ax) (ylim ax)
         (Some r) (ylabel ax) (title ax) (legend ax).

Definition set_ylabel (s : string) (ax : axes) : axes :=
  mkAxes (geometry ax) (shares_y ax) (plots ax) (ylim ax)
         (xticks_rotation ax) (Some s) (title ax) (legend ax).

Definition set_title (t : text) (fontsize : Z) (ax : axes) : axes :=
  mkAxes (geometry ax) (shares_y ax) (plots ax) (ylim ax)
         (xticks_rotation ax) (ylabel ax) (Some (t, fontsize)) (legend ax).

Definition set_legend (fontsize : Z) (ax : axes) : axes :=
  mkAxes (geometry ax) (shares_y ax) (plots ax) (ylim ax)
         (xticks_rotation ax) (ylabel ax) (title ax) (Some fontsize).

Definition geom_eqb (g h : nat * nat * nat) : bool :=
  let '(r1, c1, i1) := g in
  let '(r2, c2, i2) := h in
  (r1 =? r2)%nat && (c1 =? c2)%nat && (i1 =? i2)%nat.

(** Position of the first axes with geometry [g], counting from [i]. *)
Fixpoint find_axes (g : nat * nat * nat) (i : nat) (axs : list axes) : option nat :=
  match axs with
  | [] => None
  | ax :: rest => if geom_eqb (geometry ax) g then Some i else find_axes g (S i) rest
  end.

(** [plt.gcf()]: the current figure, a new empty one when none is open. *)
Definition on_gcf (f : figure -> figure) (figs : list figure) : list figure :=
  match figs with
  | fig :: rest => f fig :: rest
  | [] => [f (mkFigure None [] 0)]
  end.

(** [plt.gca()]: the current axes, a new one when the figure has none. *)
Definition on_gca (f : axes -> axes) (fig : figure) : figure :=
  match panels fig with
  | [] => mkFigure (figsize fig) [f (empty_axes (1, 1, 1)%nat false)] 0
  | _ :: _ => mkFigure (figsize fig) (alter f (current fig) (panels fig)) (current fig)
  end.

(** [plt.subplots(nrows, ncols, figsize=..., sharey=...)]: a new figure,
    which becomes the current one, with its grid of axes; the last axes
    created is the current one. *)
Definition new_grid (nrows ncols : nat) (sharey : bool) : list axes :=
  map (fun i => empty_axes (nrows, ncols, S i) sharey) (seq 0 (nrows * ncols)).

Definition plt_subplots (nrows ncols : nat) (size : Z * Z) (sharey : bool) : M unit :=
  modify_figures
    (fun figs => mkFigure (Some size) (new_grid nrows ncols sharey)
                          (pred (nrows * ncols)) :: figs).

(** [plt.subplot(nrows, ncols, index)]: the axes at that place of the
    current figure becomes the current one; it is added when the figure
    has none there. *)
Definition select_axes (g : nat * nat * nat) (fig : figure) : figure :=
  match find_axes g 0 (panels fig) with
  | Some i => mkFigure (figsize fig) (panels fig) i
  | None => mkFigure (figsize fig) (panels fig ++ [empty_axes g false])
                     (length (panels fig))
  end.

Definition plt_subplot (nrows ncols index : nat) : M unit :=
  if (1 <=? index)%nat && (index <=? nrows * ncols)%nat
  then modify_figures (on_gcf (select_axes (nrows, ncols, index)))
  else raise (ValueError "num must be an integer with 1 <= num <= nrows*ncols").

Definition draw (a : plot) : M unit :=
  modify_figures (on_gcf (on_gca (add_plot a))).

(** The limits an axis takes when it is asked for [v0] and [v1].

    [finite]: neither NaN nor infinite, matplotlib's test before it raises
    "Axis limits cannot be NaN or Inf". *)
Definition finite (x : float) : bool := (abs x <? infinity)%float.

(** [max(abs(vmin), abs(vmax))] *)
Definition magnitude (vmin vmax : float) : float :=
  if (abs vmin <? abs vmax)%float then abs vmax else abs vmin.

(** Below this magnitude an interval counts as empty:
    [(1e6 / tiny) * numpy.finfo(float).tiny] with [tiny = 1e-15]. *)
Definition smallest_magnitude : float := (1e6 / 1e-15 * 0x1p-1022)%float.

(** [matplotlib.transforms.nonsingular(vmin, vmax, expander=0.05)], which
    the locator of a linear axis applies to finite limits: an interval that
    is empty, or narrower than [1e-15] of its magnitude, is widened by 5%
    of the magnitude of each end. *)
Definition nonsingular (vmin vmax : float) : float * float :=
  let '(vmin, vmax) := if (vmax <? vmin)%float then (vmax, vmin) else (vmin, vmax) in
  let maxabsvalue := magnitude vmin vmax in
  if (maxabsvalue <? smallest_magnitude)%float
  then ((- 0.05)%float, 0.05%float)
  else if (vmax - vmin <=? maxabsvalue * 1e-15)%float
  then
    if (vmax =? 0)%float && (vmin =? 0)%float
    then ((- 0.05)%float, 0.05%float)
    else ((vmin - 0.05 * abs vmin)%float, (vmax + 0.05 * abs vmax)%float)
  else (vmin, vmax).

(** [Axes.set_ylim(v0, v1)] on a linear axis: the limits the axis takes,
    in the order in which they were given. *)
Definition axis_limits (v0 v1 : float) : exn + (float * float) :=
  if finite v0 && finite v1
  then
    let '(lo, hi) := nonsingular v0 v1 in
    inr (if (v1 <? v0)%float then (hi, lo) else (lo, hi))
  else inl (ValueError "Axis limits cannot be NaN or Inf").

(** The limits go to the current axes and to the axes that share their y
    axis with it. *)
Definition share_ylim (lim : float * float) (fig : figure) : figure :=
  match panels fig !! current fig with
  | Some ax =>
      if shares_y ax
      then mkFigure (figsize fig)
             (map (fun b => if shares_y b then set_ylim lim b else b) (panels fig))
             (current fig)
      else on_gca (set_ylim lim) fig
  | None => on_gca (set_ylim lim) fig
  end.

(** [plt.ylim(v0, v1)] and [plt.ylim((v0, v1))] *)
Definition plt_ylim (v0 v1 : float) : M unit :=
  lim <- lift (axis_limits v0 v1) ;;
  modify_figures (on_gcf (share_ylim lim)).

Definition plt_xticks (rotation : Z) : M unit :=
  modify_figures (on_gcf (on_gca (set_xticks_rotation rotation))).

Definition plt_ylabel (s : string) : M unit :=
  modify_figures (on_gcf (on_gca (set_ylabel s))).

Definition plt_title (t : text) (fontsize : Z) : M unit :=
  modify_figures (on_gcf (on_gca (set_title t fontsize))).

Definition plt_legend (fontsize : Z) : M unit :=
  modify_figures (on_gcf (on_gca (set_legend fontsize))).

(** [plt.show()]: on an inline backend every open figure is rendered,
    oldest first, and closed; a backend that cannot show leaves the figures
    open and renders nothing. *)
Definition plt_show : M unit :=
  fun w =>
    match pyplot_backend with
    | Inline =>
        (inr tt, mkWorld (frames w) [] (output w ++ map Rendered (rev (figures w))))
    | Agg => (inr tt, w)
    end.

(** *** seaborn *)

(** seaborn labels the value axis with the name of the variable it plots,
    unless the axis has a label already. *)
Definition label_value_axis (name : string) (ax : axes) : axes :=
  match ylabel ax with
  | None => set_ylabel name ax
  | Some s => if s =? "" then set_ylabel name ax else ax
  end.

Definition sns_plot (a : plot) (name : string) : M unit :=
  draw a ;;
  modify_figures (on_gcf (on_gca (label_value_axis name))).

(** [sns.histplot(data=df, y=y, bins=bins, kde=kde, color=color)] *)
Definition sns_histplot (df : ref) (y : string) (bins : bins_arg) (kde : bool)
    (color : color_arg) : M unit :=
  col <- df_getitem df y ;;
  sns_plot (HistPlot col bins kde color) y.

(** [sns.boxenplot(x=x, y=y, orient=orient, color=color)]; the series [y]
    comes with the name of its column. *)
Definition sns_boxenplot (x : option Series) (y : string * Series) (orient : string)
    (color : option color_arg) : M unit :=
  sns_plot (BoxenPlot x (snd y) orient color) (fst y).

(** [sns.kdeplot(values, vertical=vertical, label=label)]; the series
    [values] comes with the name of its column. *)
Definition sns_kdeplot (values : string * Series) (vertical : bool) (label : text)
    : M unit :=
  sns_plot (KdePlot (snd values) vertical label) (fst values).

End Library.

(** ** The function *)

Section Embedding.

Context `{L : Lib}.

Local Open Scope py_scope.

(** [df[item].max()] and [df[item].min()] *)
Definition item_max (df : ref) (item : string) : M scalar :=
  col <- df_getitem df item ;; lift (series_max col).

Definition item_min (df : ref) (item : string) : M scalar :=
  col <- df_getitem df item ;; lift (series_min col).

(** [df[target_name] == value_targ], and [df[mask]] *)
Definition df_eq (df : ref) (name : string) (v : Cell) : M (list bool) :=
  col <- df_getitem df name ;; ret (series_eq col v).

Definition df_mask (df : ref) (mask : list bool) : M (gmap string Series) :=
  d <- deref df ;; ret (frame_mask d mask).

(** Lines 75-79, [FIG 1 (histplot)]. *)
Definition fig1 (df : ref) (item : string) (nx : nat) (bins : bins_arg)
    (color : color_arg) (fontsize : Z) (y_min y_max : float) : M unit :=
  plt_subplot 1 nx 1 ;;
  sns_histplot df item bins true color ;;
  plt_ylim y_min y_max ;;
  plt_xticks 90 ;;
  plt_title [Lit "Distribition of "; Lit item] fontsize.

(** Lines 82-90, [FIG 2 (boxenplot)]. *)
Definition fig2 (df : ref) (item target_name target_type : string) (nx : nat)
    (color : color_arg) (fontsize : Z) (y_min y_max : float) : M unit :=
  plt_subplot 1 nx 2 ;;
  (if target_type =? "numeric"
   then
     y <- df_getitem df item ;;
     sns_boxenplot None (item, y) "v" (Some color)
   else
     x <- df_getitem df target_name ;;
     y <- df_getitem df item ;;
     sns_boxenplot (Some x) (item, y) "v" None ;;
     plt_xticks 90) ;;
  plt_ylim y_min y_max ;;
  plt_ylabel "" ;;
  plt_title [Lit item] fontsize.

(** Lines 103-107, the body of the loop over the values of the target. *)
Definition kde_of_value (df : ref) (item target_name : string) (fontsize : Z)
    (value_targ : Cell) : M unit :=
  mask <- df_eq df target_name value_targ ;;
  sub <- df_mask df mask ;;
  values <- lift (frame_getitem sub item) ;;
  mask' <- df_eq df target_name value_targ ;;
  _ <- df_mask df mask' ;;
  sns_kdeplot (item, values) true
              [Val value_targ; Lit ": "; Lit (show_nat (mask_len mask'))] ;;
  plt_title [Lit item] fontsize ;;
  plt_legend (fontsize - 1).

(** Lines 94-108, [FIG 3 (scatterplot for numeric target OR kdeplot for
    values of categorical target)]. *)
Definition fig3 (df : ref) (item target_name target_type : string) (nx : nat)
    (color : color_arg) (fontsize : Z) (y_min y_max : float) : M unit :=
  if negb (item =? target_name)
  then
    plt_subplot 1 nx 3 ;;
    (if target_type =? "numeric"
     then
       x <- df_getitem df target_name ;;
       y <- df_getitem df item ;;
       draw (LinePlot x y "o" 3 color color) ;;
       plt_xticks 90
     else if target_type =? "categorical"
     then
       col <- df_getitem df target_name ;;
       let values_targ := series_unique col in
       for_each values_targ (kde_of_value df item target_name fontsize)
     else pass) ;;
    plt_ylim y_min y_max
  else pass.

(** Lines 111-119, [Descriptive statistics]. *)
Definition missing_values_line (n : nat) (item : string) : text :=
  [Lit "There are "; Lit (show_nat n); Lit " missing values in '"; Lit item;
   Lit "'"; Lit nl; Lit "."].

Definition descriptive_statistics (df : ref) (item : string) (data_info : info_arg)
    : M unit :=
  col <- df_getitem df item ;;
  let describer := DescribeTable col in
  py_print [[Lit "==== "; Lit item; Lit " ===="]] ;;
  try_except
    (row <- lift (info_loc data_info item) ;;
     display (InfoTable item row))
    (fun _ =>
       col <- df_getitem df item ;;
       py_print [missing_values_line (isna_sum col) item]) ;;
  py_print [[Lit ">>> Statistics:"]] ;;
  display describer.

(** Lines 122-132, [Correlation coefficients for feature/target]. *)
Definition correlation (df : ref) (item target_name target_type : string)
    (fontsize : Z) (result : option (float * float)) : M (option (float * float)) :=
  if negb (item =? target_name)
  then
    if target_type =? "numeric"
    then
      pearson_coeff <- frame_corr Pearson df item target_name ;;
      spearman_coeff <- frame_corr Spearman df item target_name ;;
      py_print [[Lit ">>> Correlation:"]] ;;
      py_print [[Lit "  Pearson's  correlation coefficient between '"; Lit item;
                 Lit "' and '"; Lit target_name; Lit "' is ";
                 Num3g pearson_coeff; Lit "."]] ;;
      py_print [[Lit "  Spearman's correlation coefficient between '"; Lit item;
                 Lit "' and '"; Lit target_name; Lit "' is ";
                 Num3g spearman_coeff; Lit "."; Lit nl; Lit nl]] ;;
      let result := Some (pearson_coeff, spearman_coeff) in
      plt_title [Lit "Spearman's corr.coeff. = "; Num3g spearman_coeff; Lit nl;
                 Lit "Pearson's corr.coeff. = "; Num3g pearson_coeff] fontsize ;;
      ret result
    else ret result
  else ret result.

(** Lines 136-139. *)
Definition conclusion_label : text := [Lit ">>> CONCLUSION:"].

Definition conclusion (item : string) (descr_dict : option (gmap string string))
    : M unit :=
  try_except
    (v <- lift (dict_getitem descr_dict item) ;;
     py_print [conclusion_label; [Lit v]])
    (fun _ => pass).

Definition target_types : list string := ["numeric"; "categorical"].

Definition assert_message : string :=
  "Please define `target_type` as 'numeric' or 'categorical'".

(** Lines 70-72 are arithmetic on numpy scalars: [max - min] is taken in
    the type of the column, and the product with the float [0.05] and the
    sums that follow are binary64. *)
Definition num_variable_analysis (df : ref) (item target_name target_type : string)
    (bins : bins_arg) (color : color_arg) (fontsize : Z)
    (descr_dict : option (gmap string string)) (data_info : info_arg)
    : M (option (float * float)) :=
  py_assert (existsb (String.eqb target_type) target_types) assert_message ;;
  let nx := if negb (item =? target_name) then 3%nat else 2%nat in
  let result := None in
  plt_subplots 1 nx (15, 8)%Z true ;;
  hi <- item_max df item ;;
  lo <- item_min df item ;;
  let item_range := np_sub hi lo in
  lo <- item_min df item ;;
  let y_min := (to_float lo - 0.05 * to_float item_range)%float in
  hi <- item_max df item ;;
  let y_max := (to_float hi + 0.05 * to_float item_range)%float in
  fig1 df item nx bins color fontsize y_min y_max ;;
  fig2 df item target_name target_type nx color fontsize y_min y_max ;;
  fig3 df item target_name target_type nx color fontsize y_min y_max ;;
  descriptive_statistics df item data_info ;;
  result <- correlation df item target_name target_type fontsize result ;;
  plt_show ;;
  conclusion item descr_dict ;;
  py_print [[Lit (nl +:+ nl)]] ;;
  ret result.

End Embedding.

(** ** Tables of floats

    Cells are floats and NaN marks a missing entry, as in a pandas column
    of type float64.  [min] and [max] skip the missing entries and are NaN
    when there is none left; the coefficients are the textbook formulas in
    binary64 over the complete rows (pandas sums in another order, so its
    last digits may differ).  The instance serves to run the function on
    concrete tables; no theorem about an arbitrary [Lib] depends on it. *)

Module FloatLib.

Definition nanmin (xs : list float) : float :=
  fold_left (fun acc x =>
               if PrimFloat.is_nan x then acc
               else if PrimFloat.is_nan acc then x
               else if (x <? acc)%float then x else acc) xs nan.

Definition nanmax (xs : list float) : float :=
  fold_left (fun acc x =>
               if PrimFloat.is_nan x then acc
               else if PrimFloat.is_nan acc then x
               else if (acc <? x)%float then x else acc) xs nan.

Definition same (x y : float) : bool :=
  (x =? y)%float || (PrimFloat.is_nan x && PrimFloat.is_nan y).

Fixpoint unique_from (seen xs : list float) : list float :=
  match xs with
  | [] => []
  | x :: rest =>
      if existsb (same x) seen then unique_from seen rest
      else x :: unique_from (x :: seen) rest
  end.

Definition fsum (xs : list float) : float := fold_left PrimFloat.add xs 0%float.

Definition fcount {A} (xs : list A) : float :=
  PrimFloat.of_uint63 (Uint63.of_Z (Z.of_nat (length xs))).

Definition mean (xs : list float) : float := (fsum xs / fcount xs)%float.

Definition pearson_of (ps : list (float * float)) : float :=
  let mx := mean (map fst ps) in
  let my := mean (map snd ps) in
  let sxy := fsum (map (fun p => (fst p - mx) * (snd p - my))%float ps) in
  let sxx := fsum (map (fun p => (fst p - mx) * (fst p - mx))%float ps) in
  let syy := fsum (map (fun p => (snd p - my) * (snd p - my))%float ps) in
  (sxy / PrimFloat.sqrt (sxx * syy))%float.

(** Average rank of [x] among [xs]. *)
Definition rank (xs : list float) (x : float) : float :=
  let below := fcount (List.filter (fun y => (y <? x)%float) xs) in
  let ties := fcount (List.filter (fun y => (y =? x)%float) xs) in
  (below + (ties + 1) / 2)%float.

Definition ranked (ps : list (float * float)) : list (float * float) :=
  map (fun p => (rank (map fst ps) (fst p), rank (map snd ps) (snd p))) ps.

Definition correlate (m : corr_method) (ps : list (float * float)) : float :=
  match m with
  | Pearson => pearson_of ps
  | Spearman => pearson_of (ranked ps)
  end.

Definition float_lib_on (b : backend) : Lib := {|
  Cell := float;
  isna := PrimFloat.is_nan;
  cell_eq := PrimFloat.eqb;
  series_min := fun xs => inr (Float64 (nanmin xs));
  series_max := fun xs => inr (Float64 (nanmax xs));
  series_unique := unique_from [];
  coefficient := fun m ps => inr (correlate m ps);
  pyplot_backend := b
|}.

(** A notebook session. *)
#[export] Instance float_lib : Lib := float_lib_on Inline.

(** The table of two columns used in the examples: one entry of [age] is
    missing. *)
Definition age : list float := [20; 25; nan; 40]%float.

Definition price : list float := [10; 20; 30; 40]%float.

Definition sample : gmap string (list float) :=
  {[ "age" := age; "price" := price ]}.

Definition start : world := mkWorld (fun _ => sample) [] [].

(** The same table later in a session: text has been printed and a figure
    was left open. *)
Definition later : world :=
  mkWorld (fun _ => sample)
          [mkFigure None [] 0]
          [Text [Lit "earlier output"; Lit nl]].

(** The same, in a session whose backend cannot show. *)
Definition later_without_display : @world (float_lib_on Agg) :=
  let session := float_lib_on Agg in
  mkWorld (L := session) (fun _ => sample)
          [mkFigure (L := session) None [] 0]
          [Text (L := session) [Lit (L := session) "earlier output";
                                Lit (L := session) nl]].

Definition maroon : color_arg := ColorName "maroon".

Definition notes : option (gmap string string) :=
  Some {[ "age" := "skewed to the right" ]}.

Definition units : info_arg :=
  InfoFrame {[ "price" := [("unit", "euro")] ]}.

End FloatLib.

(** ** Tables of integers

    Cells are 64-bit integers and no entry is missing, as in a pandas
    column of type int64; [min] and [max] of a column without rows are NaN. *)

Module Int64Lib.

Definition extreme (pick : Z -> Z -> Z) (xs : list Z) : exn + scalar :=
  match xs with
  | [] => inr (Float64 nan)
  | x :: rest => inr (Int64 (fold_left pick rest x))
  end.

Fixpoint unique_from (seen xs : list Z) : list Z :=
  match xs with
  | [] => []
  | x :: rest =>
      if existsb (Z.eqb x) seen then unique_from seen rest
      else x :: unique_from (x :: seen) rest
  end.

Definition int64_lib : Lib := {|
  Cell := Z;
  isna := fun _ => false;
  cell_eq := Z.eqb;
  series_min := extreme Z.min;
  series_max := extreme Z.max;
  series_unique := unique_from [];
  coefficient := fun m ps =>
    inr (FloatLib.correlate m
           (map (fun p => (float_of_int64 (fst p), float_of_int64 (snd p))) ps));
  pyplot_backend := Inline
|}.

(** A column whose maximum and minimum are further apart than a 64-bit
    integer can tell. *)
Definition wide : list Z :=
  [-9000000000000000000; 0; 9000000000000000000]%Z.

End Int64Lib.

(** Columns that may hold text beside numbers (dtype [object] for the
    text).  The extremes of a column of numbers are those of [FloatLib];
    a column that holds text has no numeric extreme, and line 70 raises
    [TypeError] on it.  [DataFrame.corr] converts the cells to floats, and
    raises [ValueError] when one of them is text. *)
Module ObjectLib.

Inductive cell :=
| Num (x : float)
| Str (s : string).

Fixpoint numbers (xs : list cell) : option (list float) :=
  match xs with
  | [] => Some []
  | Num x :: rest =>
      match numbers rest with
      | Some r => Some (x :: r)
      | None => None
      end
  | Str _ :: _ => None
  end.

Definition same (x y : cell) : bool :=
  match x, y with
  | Num a, Num b => FloatLib.same a b
  | Str s, Str t => String.eqb s t
  | _, _ => false
  end.

Fixpoint unique_from (seen xs : list cell) : list cell :=
  match xs with
  | [] => []
  | x :: rest =>
      if existsb (same x) seen then unique_from seen rest
      else x :: unique_from (x :: seen) rest
  end.

Definition extreme (pick : list float -> float) (xs : list cell) : exn + scalar :=
  match numbers xs with
  | Some r => inr (Float64 (pick r))
  | None => inl (TypeError "unsupported operand type(s) for -: 'str' and 'str'")
  end.

Definition correlate (m : corr_method) (ps : list (cell * cell)) : exn + float :=
  match numbers (map fst ps), numbers (map snd ps) with
  | Some xs, Some ys => inr (FloatLib.correlate m (combine xs ys))
  | _, _ => inl (ValueError "could not convert string to float")
  end.

Definition object_lib : Lib := {|
  Cell := cell;
  isna := fun c => match c with Num x => PrimFloat.is_nan x | Str _ => false end;
  cell_eq := fun x y =>
    match x, y with
    | Num a, Num b => PrimFloat.eqb a b
    | Str s, Str t => String.eqb s t
    | _, _ => false
    end;
  series_min := extreme FloatLib.nanmin;
  series_max := extreme FloatLib.nanmax;
  series_unique := unique_from [];
  coefficient := correlate;
  pyplot_backend := Inline
|}.

(** A table whose target is text. *)
Definition age : list cell := [Num 20; Num 25; Num nan; Num 40]%float.

Definition grade : list cell := [Str "low"; Str "mid"; Str "high"; Str "low"].

Definition graded : @world object_lib :=
  mkWorld (L := object_lib) (fun _ => {[ "age" := age; "grade" := grade ]}) [] [].

End ObjectLib.

(** ** Vocabulary of the statements *)

Section Vocabulary.

Context `{L : Lib}.

(** [m] started in a world of [P] returns a value, and the value and the
    world it leaves satisfy [Q]. *)
Definition returns {A} (P : world -> Prop) (m : M A) (Q : A -> world -> Prop) : Prop :=
  forall w, P w -> exists a w', m w = (inr a, w') /\ Q a w'.

(** [m] started in a world of [P] raises [e] and leaves a world of [Q]. *)
Definition raises_in {A} (P : world -> Prop) (m : M A) (e : exn)
    (Q : world -> Prop) : Prop :=
  forall w, P w -> exists w', m w = (inl e, w') /\ Q w'.

(** [m] leaves the tables alone and only appends to the output stream. *)
Definition frame_safe {A} (m : M A) : Prop :=
  forall w, frames (snd (m w)) = frames w /\
            exists o, output (snd (m w)) = output w ++ o.

Definition valid_target_type (target_type : string) : Prop :=
  target_type = "numeric" \/ target_type = "categorical".

(** The number of panels the function asks [plt.subplots] for (lines 62-65). *)
Definition panel_count (item target_name : string) : nat :=
  if negb (item =? target_name) then 3 else 2.

(** [m] reads the tables [fr], returns [a] and changes nothing. *)
Definition reads {A} (fr : ref -> gmap string Series) (m : M A) (a : A) : Prop :=
  forall w, frames w = fr -> m w = (inr a, w).

(** [m] reads the tables [fr], raises [e] and changes nothing. *)
Definition fails {A} (fr : ref -> gmap string Series) (m : M A) (e : exn) : Prop :=
  forall w, frames w = fr -> m w = (inl e, w).

(** *** Numbers *)

(** Lines 70-72 on a column: the limits the function asks [plt.ylim] for,
    or the exception of the first reduction that raises. *)
Definition value_range (col : Series) : exn + (float * float) :=
  match series_max col with
  | inl e => inl e
  | inr hi =>
      match series_min col with
      | inl e => inl e
      | inr lo =>
          let item_range := np_sub hi lo in
          inr ((to_float lo - 0.05 * to_float item_range)%float,
               (to_float hi + 0.05 * to_float item_range)%float)
      end
  end.

(** Limits that pyplot keeps as they are given: they are in order, their
    magnitude is not negligible, and they differ by more than [1e-15] of
    their magnitude. *)
Definition well_separated (lo hi : float) : bool :=
  negb (hi <? lo)%float
  && negb (magnitude lo hi <? smallest_magnitude)%float
  && negb (hi - lo <=? magnitude lo hi * 1e-15)%float.

(** Lines 122-129 on two columns: the pair the call returns, [None] when
    no coefficient is asked for, or the exception of the first coefficient
    that raises. *)
Definition coefficients (item target_name target_type : string)
    (col tcol : Series) : exn + option (float * float) :=
  if negb (item =? target_name) && (target_type =? "numeric")
  then
    match coefficient Pearson (complete_pairs col tcol) with
    | inl e => inl e
    | inr p =>
        match coefficient Spearman (complete_pairs col tcol) with
        | inl e => inl e
        | inr s => inr (Some (p, s))
        end
    end
  else inr None.

(** How a call ends, as a function of the table and the four arguments
    that name the columns and the kind of target. *)
Definition outcome (d : gmap string Series) (item target_name target_type : string)
    : exn + option (float * float) :=
  if existsb (String.eqb target_type) target_types
  then
    match d !! item with
    | None => inl (KeyError item)
    | Some col =>
        match value_range col with
        | inl e => inl e
        | inr (y_min, y_max) =>
            match axis_limits y_min y_max with
            | inl e => inl e
            | inr _ =>
                if item =? target_name then inr None
                else
                  match d !! target_name with
                  | None => inl (KeyError target_name)
                  | Some tcol => coefficients item target_name target_type col tcol
                  end
            end
        end
    end
  else inl (AssertionError assert_message).

(** *** Worlds *)

(** The call is under way from the world [w0]: the tables are those of
    [w0], the output of [w0] has grown by [o], and the figure of the call
    is the current one and satisfies [C]. *)
Definition drawing (w0 : world) (C : figure -> Prop) (o : list out_item)
    (w : world) : Prop :=
  frames w = frames w0 /\
  output w = output w0 ++ o /\
  exists fig, figures w = fig :: figures w0 /\ C fig.

(** The call broke off from [w0] after it printed [o]: its figure is still
    open, on top of the figures that were. *)
Definition broke_off (w0 : world) (o : list out_item) (w : world) : Prop :=
  drawing w0 (fun _ => True) o w.

(** What [plt.show] renders when [figs] were open before the call and
    [fig] is the figure of the call, and the figures it leaves open. *)
Definition show_output (figs : list figure) (fig : figure) : list out_item :=
  match pyplot_backend with
  | Inline => map Rendered (rev figs) ++ [Rendered fig]
  | Agg => []
  end.

Definition open_after_show (figs : list figure) (fig : figure) : list figure :=
  match pyplot_backend with
  | Inline => []
  | Agg => fig :: figs
  end.

(** The world after [plt.show]: the call started in [w0], printed [pre]
    before it showed its figure [fig], and [post] after that. *)
Definition shown (w0 : world) (fig : figure) (pre post : list out_item) : world :=
  mkWorld (frames w0)
          (open_after_show (figures w0) fig)
          (output w0 ++ pre ++ show_output (figures w0) fig ++ post).

(** The figures rendered in a stretch of output, and the text and tables
    printed in it. *)
Fixpoint rendered (o : list out_item) : list figure :=
  match o with
  | [] => []
  | Rendered f :: rest => f :: rendered rest
  | _ :: rest => rendered rest
  end.

Definition printed (o : list out_item) : list out_item :=
  List.filter (fun x => match x with Rendered _ => false | _ => true end) o.

(** [fig] is the figure of the call that led from [w] to [w'].  On an
    inline backend the call has rendered it, after the figures that were
    still open, and has closed them all; on a backend that cannot show,
    nothing was rendered and the figure is open, on top of the others. *)
Definition produced (w w' : world) (fig : figure) : Prop :=
  match pyplot_backend with
  | Inline =>
      rendered (output w') = rendered (output w) ++ rev (figures w) ++ [fig] /\
      figures w' = []
  | Agg =>
      rendered (output w') = rendered (output w) /\
      figures w' = fig :: figures w
  end.

(** *** What the call prints, block by block *)

Definition is_conclusion (x : out_item) : bool :=
  match x with
  | Text (Lit s :: _) => s =? ">>> CONCLUSION:"
  | _ => false
  end.

Definition is_missing_count (x : out_item) : bool :=
  match x with
  | Text (Lit s :: _) => s =? "There are "
  | _ => false
  end.

Definition header_line (item : string) : out_item :=
  Text [Lit "==== "; Lit item; Lit " ===="; Lit nl].

Definition missing_values_output (col : Series) (item : string) : out_item :=
  Text (missing_values_line (isna_sum col) item ++ [Lit nl]).

(** The row of the info table when the lookup succeeds, the count of
    missing values when it fails. *)
Definition info_output (item : string) (col : Series) (data_info : info_arg)
    : out_item :=
  match info_loc data_info item with
  | inr row => Display (InfoTable item row)
  | inl _ => missing_values_output col item
  end.

Definition statistics_output (item : string) (col : Series) (data_info : info_arg)
    : list out_item :=
  [header_line item; info_output item col data_info;
   Text [Lit ">>> Statistics:"; Lit nl]; Display (DescribeTable col)].

Definition correlation_output (item target_name : string) (p s : float)
    : list out_item :=
  [Text [Lit ">>> Correlation:"; Lit nl];
   Text [Lit "  Pearson's  correlation coefficient between '"; Lit item;
         Lit "' and '"; Lit target_name; Lit "' is "; Num3g p; Lit "."; Lit nl];
   Text [Lit "  Spearman's correlation coefficient between '"; Lit item;
         Lit "' and '"; Lit target_name; Lit "' is "; Num3g s; Lit ".";
         Lit nl; Lit nl; Lit nl]].

Definition conclusion_line (v : string) : out_item :=
  Text [Lit ">>> CONCLUSION:"; Lit " "; Lit v; Lit nl].

Definition conclusion_output (entry : option string) : list out_item :=
  match entry with
  | Some v => [conclusion_line v]
  | None => []
  end.

(** The info table gives nothing for [item]: it is absent, it has no row
    for [item], or it is not a table indexed by rows and columns. *)
Definition info_unavailable (data_info : info_arg) (item : string) : Prop :=
  match data_info with
  | InfoFrame rows => rows !! item = None
  | InfoNone | InfoSeries _ | InfoOther _ => True
  end.

(** The entry of the annotations for [item], when the mapping is given and
    has one. *)
Definition annotation (descr_dict : option (gmap string string)) (item : string)
    : option string :=
  match descr_dict with
  | Some d => d !! item
  | None => None
  end.

Definition closing : out_item := Text [Lit (nl +:+ nl); Lit nl].

(** What a call that returns [r] prints before it shows its figure. *)
Definition report (item target_name : string) (col : Series) (data_info : info_arg)
    (r : option (float * float)) : list out_item :=
  statistics_output item col data_info
  ++ match r with
     | Some (p, s) => correlation_output item target_name p s
     | None => []
     end.

(** *** What the call draws *)

(** The figure that [plt.subplots] makes on line 69. *)
Definition blank_figure (nx : nat) : figure :=
  mkFigure (Some (15, 8)%Z) (new_grid 1 nx true) (pred (1 * nx)).

(** Line 76: the histogram of the column. *)
Definition histogram (col : Series) (bins : bins_arg) (color : color_arg) : plot :=
  HistPlot col bins true color.

(** Lines 84 and 86: the boxen plot, of all rows or by value of the target. *)
Definition boxen (target_type : string) (col tcol : Series) (color : color_arg)
    : plot :=
  if target_type =? "numeric"
  then BoxenPlot None col "v" (Some color)
  else BoxenPlot (Some tcol) col "v" None.

(** Lines 97-98: the points of the column against the target. *)
Definition scatter (col tcol : Series) (color : color_arg) : plot :=
  LinePlot tcol col "o" 3 color color.

(** Lines 103-105: the density plot of the rows whose target is [v],
    labelled with [v] and the number of these rows. *)
Definition kde_plot (col tcol : Series) (v : Cell) : plot :=
  KdePlot (select_rows (series_eq tcol v) col) true
          [Val v; Lit ": "; Lit (show_nat (mask_len (series_eq tcol v)))].

(** Lines 103-107 on the current axes. *)
Definition kde_axes (item : string) (fs : Z) (col tcol : Series) (v : Cell)
    (ax : axes) : axes :=
  set_legend (fs - 1)
    (set_title [Lit item] fs
       (label_value_axis item (add_plot (kde_plot col tcol v) ax))).

Definition kde_figure (item : string) (fs : Z) (col tcol : Series) (v : Cell)
    (fig : figure) : figure :=
  on_gca (set_legend (fs - 1))
    (on_gca (set_title [Lit item] fs)
       (on_gca (label_value_axis item)
          (on_gca (add_plot (kde_plot col tcol v)) fig))).

(** Lines 130-131: the title that shows the coefficients. *)
Definition coefficients_title (p s : float) : text :=
  [Lit "Spearman's corr.coeff. = "; Num3g s; Lit nl;
   Lit "Pearson's corr.coeff. = "; Num3g p].

(** The panels when the call returns; [lim] are the limits of the value
    axis. *)
Definition distribution_panel (nx : nat) (item : string) (col : Series)
    (lim : float * float) (bins : bins_arg) (color : color_arg) (fs : Z) : axes :=
  mkAxes (1, nx, 1)%nat true [histogram col bins color]
         (Some lim) (Some 90%Z) (Some item)
         (Some ([Lit "Distribition of "; Lit item], fs)) None.

Definition dispersion_panel (nx : nat) (item target_type : string)
    (col tcol : Series) (lim : float * float) (color : color_arg) (fs : Z) : axes :=
  mkAxes (1, nx, 2)%nat true [boxen target_type col tcol color]
         (Some lim)
         (if target_type =? "numeric" then None else Some 90%Z)
         (Some "") (Some ([Lit item], fs)) None.

(** The third panel after line 98, before the coefficients title it. *)
Definition untitled_scatter_panel (col tcol : Series) (lim : float * float)
    (color : color_arg) : axes :=
  mkAxes (1, 3, 3)%nat true [scatter col tcol color]
         (Some lim) (Some 90%Z) None None None.

Definition scatter_panel (col tcol : Series) (lim : float * float)
    (r : option (float * float)) (color : color_arg) (fs : Z) : axes :=
  match r with
  | Some (p, s) =>
      mkAxes (1, 3, 3)%nat true [scatter col tcol color]
             (Some lim) (Some 90%Z) None
             (Some (coefficients_title p s, fs)) None
  | None => untitled_scatter_panel col tcol lim color
  end.

Definition density_panel (item : string) (col tcol : Series) (lim : float * float)
    (fs : Z) : axes :=
  let values_targ := series_unique tcol in
  mkAxes (1, 3, 3)%nat true (map (kde_plot col tcol) values_targ)
         (Some lim) None
         (match values_targ with [] => None | _ :: _ => Some item end)
         (match values_targ with [] => None | _ :: _ => Some ([Lit item], fs) end)
         (match values_targ with [] => None | _ :: _ => Some (fs - 1)%Z end).

(** The axes of the grid that nothing was plotted on yet, once the first
    panel has set the limits of the value axis they share. *)
Definition waiting_panels (nx : nat) (lim : float * float) (i0 n : nat) : list axes :=
  map (fun i => mkAxes (1, nx, S i)%nat true [] (Some lim)
                       None None None None) (seq i0 n).

(** The figure of a call that returns [r]. *)
Definition profile_figure (item target_name target_type : string)
    (col tcol : Series) (lim : float * float) (r : option (float * float))
    (bins : bins_arg) (color : color_arg) (fs : Z) : figure :=
  if item =? target_name
  then
    mkFigure (Some (15, 8)%Z)
      [distribution_panel 2 item col lim bins color fs;
       dispersion_panel 2 item target_type col tcol lim color fs] 1
  else
    mkFigure (Some (15, 8)%Z)
      [distribution_panel 3 item col lim bins color fs;
       dispersion_panel 3 item target_type col tcol lim color fs;
       if target_type =? "numeric"
       then scatter_panel col tcol lim r color fs
       else density_panel item col tcol lim fs] 2.

End Vocabulary.

(** Tables for the examples: one whose column [level] has no variation,
    one whose columns have no rows, one whose only column has no entry
    that is not missing, and a mapping of info rows that has one for
    [age]. *)
Module FloatSamples.

Import FloatLib.

Definition level : list float := [1; 1; 1]%float.

Definition flat : world :=
  mkWorld (fun _ => {[ "level" := level; "price" := [1; 2; 3]%float ]}) [] [].

Definition no_rows : world :=
  mkWorld (fun _ => {[ "age" := []; "price" := [] ]}) [] [].

Definition unobserved : world :=
  mkWorld (fun _ => {[ "age" := [nan; nan]%float ]}) [] [].

Definition age_info : info_arg :=
  InfoFrame {[ "age" := [("unit", "years")] ]}.

End FloatSamples.

Section Correctness.

Context `{L : Lib}.

Local Open Scope py_scope.

(** *** Sequencing *)

Lemma returns_ret {A} (P : world -> Prop) (Q : A -> world -> Prop) (a : A) :
  (forall w, P w -> Q a w) -> returns P (ret a) Q.
Proof. intros HQ w HP. exists a, w. split; [reflexivity | auto]. Qed.

Lemma returns_bind {A B} (P : world -> Prop) (Q : A -> world -> Prop)
    (R : B -> world -> Prop) (m : M A) (k : A -> M B) :
  returns P m Q -> (forall a, returns (Q a) (k a) R) -> returns P (bind m k) R.
Proof.
  intros Hm Hk w HP.
  destruct (Hm w HP) as (a & w1 & Em & HQ).
  destruct (Hk a w1 HQ) as (b & w2 & Ek & HR).
  exists b, w2. unfold bind. rewrite Em. auto.
Qed.

Lemma returns_weaken {A} (P P' : world -> Prop) (Q Q' : A -> world -> Prop) (m : M A) :
  returns P' m Q' -> (forall w, P w -> P' w) -> (forall a w, Q' a w -> Q a w) ->
  returns P m Q.
Proof.
  intros Hm HP HQ w Hw.
  destruct (Hm w (HP w Hw)) as (a & w' & E & H'). eauto.
Qed.

Lemma returns_assume {A} (fact : Prop) (P : world -> Prop) (Q : A -> world -> Prop)
    (m : M A) :
  (fact -> returns P m Q) -> returns (fun w => fact /\ P w) m Q.
Proof. intros H w [Hf HP]. exact (H Hf w HP). Qed.

Lemma returns_try {A} (P : world -> Prop) (Q : A -> world -> Prop) (body : M A)
    (handler : exn -> M A) :
  returns P body Q -> returns P (try_except body handler) Q.
Proof.
  intros Hb w HP. destruct (Hb w HP) as (a & w' & E & HQ).
  exists a, w'. unfold try_except. rewrite E. auto.
Qed.

Lemma returns_except {A} (P P' : world -> Prop) (Q : A -> world -> Prop) (body : M A)
    (handler : exn -> M A) :
  (forall w, P w -> exists e w', body w = (inl e, w') /\ P' w') ->
  (forall e, returns P' (handler e) Q) ->
  returns P (try_except body handler) Q.
Proof.
  intros Hb Hh w HP. destruct (Hb w HP) as (e & w1 & E & HP').
  destruct (Hh e w1 HP') as (a & w2 & E2 & HQ).
  exists a, w2. unfold try_except. rewrite E. auto.
Qed.

Lemma raises_in_now {A B} (P Q : world -> Prop) (m : M A) (k : A -> M B) e :
  raises_in P m e Q -> raises_in P (bind m k) e Q.
Proof.
  intros Hm w HP. destruct (Hm w HP) as (w' & E & HQ).
  exists w'. unfold bind. rewrite E. auto.
Qed.

Lemma raises_in_later {A B} (P Q : world -> Prop) (R : A -> world -> Prop)
    (m : M A) (k : A -> M B) e :
  returns P m R -> (forall a, raises_in (R a) (k a) e Q) ->
  raises_in P (bind m k) e Q.
Proof.
  intros Hm Hk w HP.
  destruct (Hm w HP) as (a & w1 & Em & HR).
  destruct (Hk a w1 HR) as (w2 & Ek & HQ).
  exists w2. unfold bind. rewrite Em. auto.
Qed.

Lemma raises_in_weaken {A} (P Q Q' : world -> Prop) (m : M A) e :
  raises_in P m e Q -> (forall w, Q w -> Q' w) -> raises_in P m e Q'.
Proof.
  intros Hm HQ w Hw. destruct (Hm w Hw) as (w' & E & H'). eauto.
Qed.

(** *** Reading the tables *)

Lemma reads_ret {A} fr (a : A) : reads fr (ret a) a.
Proof. intros w _. reflexivity. Qed.

Lemma reads_bind {A B} fr (m : M A) (k : A -> M B) (a : A) (b : B) :
  reads fr m a -> reads fr (k a) b -> reads fr (bind m k) b.
Proof. intros Hm Hk w Hw. unfold bind. rewrite (Hm w Hw). exact (Hk w Hw). Qed.

Lemma reads_deref fr (df : ref) : reads fr (deref df) (fr df).
Proof. intros w <-. reflexivity. Qed.

Lemma reads_lift {A} fr (r : exn + A) (a : A) : r = inr a -> reads fr (lift r) a.
Proof. intros -> w _. reflexivity. Qed.

Lemma fails_lift {A} fr (r : exn + A) e : r = inl e -> fails fr (lift r) e.
Proof. intros -> w _. reflexivity. Qed.

Lemma fails_later {A B} fr (m : M A) (k : A -> M B) (a : A) e :
  reads fr m a -> fails fr (k a) e -> fails fr (bind m k) e.
Proof. intros Hm Hk w Hw. unfold bind. rewrite (Hm w Hw). exact (Hk w Hw). Qed.

Lemma frame_getitem_some (d : gmap string Series) (key : string) (col : Series) :
  d !! key = Some col -> frame_getitem d key = inr col.
Proof. intros H. unfold frame_getitem. now rewrite H. Qed.

Lemma frame_getitem_none (d : gmap string Series) (key : string) :
  d !! key = None -> frame_getitem d key = inl (KeyError key).
Proof. intros H. unfold frame_getitem. now rewrite H. Qed.

Lemma reads_getitem fr (df : ref) (key : string) (col : Series) :
  fr df !! key = Some col -> reads fr (df_getitem df key) col.
Proof.
  intros H. unfold df_getitem.
  eapply reads_bind; [apply reads_deref |].
  apply reads_lift, frame_getitem_some, H.
Qed.

Lemma fails_getitem fr (df : ref) (key : string) :
  fr df !! key = None -> fails fr (df_getitem df key) (KeyError key).
Proof.
  intros H. unfold df_getitem.
  eapply fails_later; [apply reads_deref |].
  apply fails_lift, frame_getitem_none, H.
Qed.

Lemma reads_item_max fr df item col mx :
  fr df !! item = Some col -> series_max col = inr mx ->
  reads fr (item_max df item) mx.
Proof.
  intros H Hmx. unfold item_max.
  eapply reads_bind; [apply reads_getitem, H | apply reads_lift, Hmx].
Qed.

Lemma reads_item_min fr df item col mn :
  fr df !! item = Some col -> series_min col = inr mn ->
  reads fr (item_min df item) mn.
Proof.
  intros H Hmn. unfold item_min.
  eapply reads_bind; [apply reads_getitem, H | apply reads_lift, Hmn].
Qed.

Lemma fails_item_max fr df item col e :
  fr df !! item = Some col -> series_max col = inl e ->
  fails fr (item_max df item) e.
Proof.
  intros H He. unfold item_max.
  eapply fails_later; [apply reads_getitem, H | apply fails_lift, He].
Qed.

Lemma fails_item_min fr df item col e :
  fr df !! item = Some col -> series_min col = inl e ->
  fails fr (item_min df item) e.
Proof.
  intros H He. unfold item_min.
  eapply fails_later; [apply reads_getitem, H | apply fails_lift, He].
Qed.

Lemma reads_df_eq fr df name col v :
  fr df !! name = Some col -> reads fr (df_eq df name v) (series_eq col v).
Proof.
  intros H. unfold df_eq.
  eapply reads_bind; [apply reads_getitem, H | apply reads_ret].
Qed.

Lemma reads_df_mask fr df mask :
  reads fr (df_mask df mask) (frame_mask (fr df) mask).
Proof.
  unfold df_mask. eapply reads_bind; [apply reads_deref | apply reads_ret].
Qed.

Lemma reads_frame_corr fr m df a b x y c :
  fr df !! a = Some x -> fr df !! b = Some y ->
  coefficient m (complete_pairs x y) = inr c ->
  reads fr (frame_corr m df a b) c.
Proof.
  intros Ha Hb Hc. unfold frame_corr.
  eapply reads_bind; [apply reads_getitem, Ha |].
  eapply reads_bind; [apply reads_getitem, Hb | apply reads_lift, Hc].
Qed.

Lemma fails_frame_corr fr m df a b x y e :
  fr df !! a = Some x -> fr df !! b = Some y ->
  coefficient m (complete_pairs x y) = inl e ->
  fails fr (frame_corr m df a b) e.
Proof.
  intros Ha Hb Hc. unfold frame_corr.
  eapply fails_later; [apply reads_getitem, Ha |].
  eapply fails_later; [apply reads_getitem, Hb | apply fails_lift, Hc].
Qed.

Lemma frame_mask_getitem (d : gmap string Series) mask key col :
  d !! key = Some col ->
  frame_getitem (frame_mask d mask) key = inr (select_rows mask col).
Proof.
  intros H. apply frame_getitem_some. unfold frame_mask.
  rewrite lookup_fmap, H. reflexivity.
Qed.

Lemma returns_reads {A} (P : world -> Prop) fr (m : M A) (a : A) :
  reads fr m a -> (forall w, P w -> frames w = fr) ->
  returns P m (fun x w => x = a /\ P w).
Proof.
  intros Hm HP w Hw. exists a, w. rewrite (Hm w (HP w Hw)). auto.
Qed.

(** A read followed by the rest of the block. *)
Lemma returns_read_then {A B} (P : world -> Prop) fr (m : M A) (a : A)
    (k : A -> M B) (R : B -> world -> Prop) :
  reads fr m a -> (forall w, P w -> frames w = fr) ->
  returns P (k a) R -> returns P (bind m k) R.
Proof.
  intros Hm HP Hk.
  eapply returns_bind; [eapply returns_reads; eassumption |].
  intros x. apply returns_assume. intros ->. exact Hk.
Qed.

Lemma raises_in_fails {A} (P : world -> Prop) fr (m : M A) e :
  fails fr m e -> (forall w, P w -> frames w = fr) -> raises_in P m e P.
Proof.
  intros Hm HP w Hw. exists w. rewrite (Hm w (HP w Hw)). auto.
Qed.

Lemma raises_in_read_then {A B} (P Q : world -> Prop) fr (m : M A) (a : A)
    (k : A -> M B) e :
  reads fr m a -> (forall w, P w -> frames w = fr) ->
  raises_in P (k a) e Q -> raises_in P (bind m k) e Q.
Proof.
  intros Hm HP Hk.
  eapply raises_in_later; [eapply returns_reads; eassumption |].
  intros x w [-> Hw]. exact (Hk w Hw).
Qed.

Lemma drawing_frames w0 C o w : drawing w0 C o w -> frames w = frames w0.
Proof. now intros [H _]. Qed.

Lemma shown_frames w0 F pre post w : w = shown w0 F pre post -> frames w = frames w0.
Proof. now intros ->. Qed.

Lemma drawing_broke_off w0 C o w : drawing w0 C o w -> broke_off w0 o w.
Proof. intros (Hfr & Ho & fig & Hfig & _). repeat split; eauto. Qed.

(** *** The statements of the library, on a call under way *)

Lemma returns_on_gcf w0 (C C' : figure -> Prop) o (f : figure -> figure) :
  (forall fig, C fig -> C' (f fig)) ->
  returns (drawing w0 C o) (modify_figures (on_gcf f)) (fun _ => drawing w0 C' o).
Proof.
  intros Hf w (Hfr & Ho & fig & Hfig & HC).
  exists tt. eexists. split; [reflexivity |].
  split; [exact Hfr | split; [exact Ho |]].
  exists (f fig). simpl. rewrite Hfig. simpl. auto.
Qed.

Lemma returns_figure w0 F o (f : figure -> figure) :
  returns (drawing w0 (eq F) o) (modify_figures (on_gcf f))
          (fun _ => drawing w0 (eq (f F)) o).
Proof. apply returns_on_gcf. now intros fig <-. Qed.

Lemma returns_subplots_exact w0 nx :
  returns (fun w => w = w0) (plt_subplots 1 nx (15, 8)%Z true)
          (fun _ => drawing w0 (eq (blank_figure nx)) []).
Proof.
  intros w ->. exists tt. eexists. split; [reflexivity |].
  split; [reflexivity | split; [simpl; now rewrite app_nil_r |]].
  eexists. split; reflexivity.
Qed.

Lemma returns_subplot_exact w0 F o nrows ncols k :
  (1 <= k <= nrows * ncols)%nat ->
  returns (drawing w0 (eq F) o) (plt_subplot nrows ncols k)
          (fun _ => drawing w0 (eq (select_axes (nrows, ncols, k) F)) o).
Proof.
  intros Hk. unfold plt_subplot.
  replace ((1 <=? k)%nat && (k <=? nrows * ncols)%nat) with true.
  - apply returns_figure.
  - symmetry. apply andb_true_intro. split; apply Nat.leb_le; lia.
Qed.

Lemma returns_draw_exact w0 F o a :
  returns (drawing w0 (eq F) o) (draw a)
          (fun _ => drawing w0 (eq (on_gca (add_plot a) F)) o).
Proof. apply returns_figure. Qed.

Lemma returns_sns_plot w0 F o a name :
  returns (drawing w0 (eq F) o) (sns_plot a name)
          (fun _ => drawing w0
                      (eq (on_gca (label_value_axis name) (on_gca (add_plot a) F))) o).
Proof.
  unfold sns_plot.
  eapply returns_bind; [apply returns_draw_exact | intros ?]. apply returns_figure.
Qed.

Lemma returns_xticks_exact w0 F o r :
  returns (drawing w0 (eq F) o) (plt_xticks r)
          (fun _ => drawing w0 (eq (on_gca (set_xticks_rotation r) F)) o).
Proof. apply returns_figure. Qed.

Lemma returns_ylabel_exact w0 F o s :
  returns (drawing w0 (eq F) o) (plt_ylabel s)
          (fun _ => drawing w0 (eq (on_gca (set_ylabel s) F)) o).
Proof. apply returns_figure. Qed.

Lemma returns_title_exact w0 F o t fs :
  returns (drawing w0 (eq F) o) (plt_title t fs)
          (fun _ => drawing w0 (eq (on_gca (set_title t fs) F)) o).
Proof. apply returns_figure. Qed.

Lemma returns_legend_exact w0 F o fs :
  returns (drawing w0 (eq F) o) (plt_legend fs)
          (fun _ => drawing w0 (eq (on_gca (set_legend fs) F)) o).
Proof. apply returns_figure. Qed.

(** [plt.ylim] with limits the axis accepts, and with limits it refuses. *)
Lemma returns_ylim_exact w0 F o v0 v1 lim :
  axis_limits v0 v1 = inr lim ->
  returns (drawing w0 (eq F) o) (plt_ylim v0 v1)
          (fun _ => drawing w0 (eq (share_ylim lim F)) o).
Proof.
  intros Hlim. unfold plt_ylim.
  eapply returns_read_then;
    [apply (reads_lift (frames w0)), Hlim | apply drawing_frames | apply returns_figure].
Qed.

Lemma raises_in_ylim w0 C o v0 v1 e :
  axis_limits v0 v1 = inl e ->
  raises_in (drawing w0 C o) (plt_ylim v0 v1) e (drawing w0 C o).
Proof.
  intros Hlim. unfold plt_ylim. apply raises_in_now.
  eapply raises_in_fails; [apply (fails_lift (frames w0)), Hlim | apply drawing_frames].
Qed.

Lemma returns_write w0 C o x :
  returns (drawing w0 C o) (write x) (fun _ => drawing w0 C (o ++ [x])).
Proof.
  intros w (Hfr & Ho & Hfig). exists tt. eexists. split; [reflexivity |].
  split; [exact Hfr | split; [| exact Hfig]].
  simpl. rewrite Ho. now rewrite <- app_assoc.
Qed.

Lemma returns_print w0 C o args :
  returns (drawing w0 C o) (py_print args)
          (fun _ => drawing w0 C (o ++ [Text (sep_join args ++ [Lit nl])])).
Proof. apply returns_write. Qed.

Lemma returns_display w0 C o x :
  returns (drawing w0 C o) (display x) (fun _ => drawing w0 C (o ++ [Display x])).
Proof. apply returns_write. Qed.

Lemma drawing_world w0 F o w :
  drawing w0 (eq F) o w ->
  w = mkWorld (frames w0) (F :: figures w0) (output w0 ++ o).
Proof.
  intros (Hfr & Ho & fig & Hfig & <-). destruct w as [fr figs out].
  simpl in *. now subst.
Qed.

Lemma returns_show w0 F o :
  returns (drawing w0 (eq F) o) plt_show (fun _ w => w = shown w0 F o []).
Proof.
  intros w Hw. apply drawing_world in Hw. subst w.
  exists tt. unfold plt_show, shown, show_output, open_after_show.
  destruct pyplot_backend; eexists; (split; [reflexivity |]); simpl.
  - rewrite map_app, !app_nil_r, <- !app_assoc. reflexivity.
  - now rewrite !app_nil_r.
Qed.

Lemma returns_write_shown w0 F pre post x :
  returns (fun w => w = shown w0 F pre post) (write x)
          (fun _ w => w = shown w0 F pre (post ++ [x])).
Proof.
  intros w ->. exists tt. eexists. split; [reflexivity |].
  unfold write, shown. simpl. now rewrite <- !app_assoc.
Qed.

Lemma returns_print_shown w0 F pre post args :
  returns (fun w => w = shown w0 F pre post) (py_print args)
          (fun _ w => w = shown w0 F pre (post ++ [Text (sep_join args ++ [Lit nl])])).
Proof. apply returns_write_shown. Qed.

Lemma drawing_output w0 C o o' w : o = o' -> drawing w0 C o w -> drawing w0 C o' w.
Proof. now intros ->. Qed.

Lemma drawing_figure w0 F F' o w :
  F = F' -> drawing w0 (eq F) o w -> drawing w0 (eq F') o w.
Proof. now intros ->. Qed.

Ltac draw_stmt :=
  first
    [ apply returns_subplot_exact; simpl; lia
    | apply returns_draw_exact
    | apply returns_sns_plot
    | apply returns_xticks_exact
    | apply returns_ylabel_exact
    | apply returns_title_exact
    | apply returns_legend_exact
    | eapply returns_ylim_exact; eassumption
    | apply returns_print
    | apply returns_display
    | apply returns_show
    | apply returns_print_shown ].

Ltac draw_step := eapply returns_bind; [draw_stmt | intros ?].

Ltac read_col lem :=
  eapply returns_read_then;
  [ eapply lem; eassumption
  | first [apply drawing_frames | apply shown_frames]
  | ].

Ltac read_then_raise lem :=
  eapply raises_in_read_then;
  [ eapply lem; eassumption
  | first [apply drawing_frames | apply shown_frames]
  | ].

(** *** The blocks of the function *)

Lemma valid_target_type_in target_type :
  valid_target_type target_type <->
  existsb (String.eqb target_type) target_types = true.
Proof.
  unfold valid_target_type, target_types. simpl.
  rewrite orb_false_r, orb_true_iff, !String.eqb_eq. reflexivity.
Qed.

Lemma value_range_inr (col : Series) y_min y_max :
  value_range col = inr (y_min, y_max) ->
  exists mx mn,
    series_max col = inr mx /\ series_min col = inr mn /\
    y_min = (to_float mn - 0.05 * to_float (np_sub mx mn))%float /\
    y_max = (to_float mx + 0.05 * to_float (np_sub mx mn))%float.
Proof.
  unfold value_range. intros H.
  destruct (series_max col) as [e | mx]; [discriminate |].
  destruct (series_min col) as [e | mn]; [discriminate |].
  injection H as <- <-. exists mx, mn. auto.
Qed.

Lemma returns_histplot_exact w0 F o df item col bins kde color :
  frames w0 df !! item = Some col ->
  returns (drawing w0 (eq F) o) (sns_histplot df item bins kde color)
          (fun _ => drawing w0
                      (eq (on_gca (label_value_axis item)
                             (on_gca (add_plot (HistPlot col bins kde color)) F))) o).
Proof.
  intros Hitem. unfold sns_histplot. read_col reads_getitem. draw_stmt.
Qed.

(** Lines 75-79 on a blank figure. *)
Lemma returns_fig1_exact w0 o df item col nx bins color fs v0 v1 lim :
  frames w0 df !! item = Some col ->
  axis_limits v0 v1 = inr lim ->
  (nx = 2 \/ nx = 3)%nat ->
  returns (drawing w0 (eq (blank_figure nx)) o)
          (fig1 df item nx bins color fs v0 v1)
          (fun _ =>
             drawing w0
               (eq (mkFigure (Some (15, 8)%Z)
                      (distribution_panel nx item col lim bins color fs
                       :: waiting_panels nx lim 1 (nx - 1))
                      0)) o).
Proof.
  intros Hitem Hlim Hnx. unfold fig1.
  eapply returns_bind; [apply returns_subplot_exact; lia | intros ?].
  eapply returns_bind; [eapply returns_histplot_exact, Hitem | intros ?].
  draw_step. draw_step.
  eapply returns_weaken; [draw_stmt | intros w Hw; exact Hw |].
  intros ? w Hw. eapply drawing_figure; [| exact Hw].
  destruct Hnx as [-> | ->]; reflexivity.
Qed.

(** Line 77 with limits the axis refuses. *)
Lemma raises_in_fig1 w0 o df item col nx bins color fs v0 v1 e :
  frames w0 df !! item = Some col ->
  axis_limits v0 v1 = inl e ->
  (nx = 2 \/ nx = 3)%nat ->
  raises_in (drawing w0 (eq (blank_figure nx)) o)
            (fig1 df item nx bins color fs v0 v1) e (broke_off w0 o).
Proof.
  intros Hitem Hlim Hnx. unfold fig1.
  eapply raises_in_later; [apply returns_subplot_exact; lia | intros ?].
  eapply raises_in_later; [eapply returns_histplot_exact, Hitem | intros ?].
  apply raises_in_now.
  eapply raises_in_weaken; [apply raises_in_ylim, Hlim | apply drawing_broke_off].
Qed.

(** Lines 82-90 after the first panel. *)
Lemma returns_fig2_exact w0 o df item target_name target_type col tcol nx
    bins color fs v0 v1 lim :
  frames w0 df !! item = Some col ->
  (target_type = "numeric" \/ frames w0 df !! target_name = Some tcol) ->
  axis_limits v0 v1 = inr lim ->
  (nx = 2 \/ nx = 3)%nat ->
  returns (drawing w0
             (eq (mkFigure (Some (15, 8)%Z)
                    (distribution_panel nx item col lim bins color fs
                     :: waiting_panels nx lim 1 (nx - 1)) 0)) o)
          (fig2 df item target_name target_type nx color fs v0 v1)
          (fun _ =>
             drawing w0
               (eq (mkFigure (Some (15, 8)%Z)
                      (distribution_panel nx item col lim bins color fs
                       :: dispersion_panel nx item target_type col tcol lim color fs
                       :: waiting_panels nx lim 2 (nx - 2)) 1)) o).
Proof.
  intros Hitem Htarget Hlim Hnx. unfold fig2.
  eapply returns_bind; [apply returns_subplot_exact; lia | intros ?].
  eapply returns_bind
    with (Q := fun _ =>
                 drawing w0
                   (eq (mkFigure (Some (15, 8)%Z)
                          (distribution_panel nx item col lim bins color fs
                           :: mkAxes (1, nx, 2)%nat true
                                     [boxen target_type col tcol color]
                                     (Some lim)
                                     (if target_type =? "numeric" then None
                                      else Some 90%Z)
                                     (Some item) None None
                           :: waiting_panels nx lim 2 (nx - 2)) 1)) o).
  - unfold boxen.
    destruct (String.eqb_spec target_type "numeric") as [Hnum | Hcat].
    + read_col reads_getitem. unfold sns_boxenplot.
      eapply returns_weaken; [draw_stmt | intros w Hw; exact Hw |].
      intros ? w Hw. eapply drawing_figure; [| exact Hw].
      destruct Hnx as [-> | ->]; reflexivity.
    + destruct Htarget as [? | Htarget]; [contradiction |].
      read_col reads_getitem. read_col reads_getitem. unfold sns_boxenplot.
      draw_step.
      eapply returns_weaken; [draw_stmt | intros w Hw; exact Hw |].
      intros ? w Hw. eapply drawing_figure; [| exact Hw].
      destruct Hnx as [-> | ->]; reflexivity.
  - intros ?. draw_step. draw_step.
    eapply returns_weaken; [draw_stmt | intros w Hw; exact Hw |].
    intros ? w Hw. eapply drawing_figure; [| exact Hw].
    destruct Hnx as [-> | ->]; reflexivity.
Qed.

(** Line 86 with a target that is not a column. *)
Lemma raises_in_fig2 w0 F o df item target_name target_type nx color fs v0 v1 :
  target_type <> "numeric" ->
  frames w0 df !! target_name = None ->
  (nx = 2 \/ nx = 3)%nat ->
  raises_in (drawing w0 (eq F) o)
            (fig2 df item target_name target_type nx color fs v0 v1)
            (KeyError target_name) (broke_off w0 o).
Proof.
  intros Hkind Htarget Hnx. unfold fig2.
  eapply raises_in_later; [apply returns_subplot_exact; lia | intros ?].
  apply raises_in_now.
  destruct (String.eqb_spec target_type "numeric") as [? | _]; [congruence |].
  apply raises_in_now.
  eapply raises_in_weaken;
    [eapply raises_in_fails; [apply fails_getitem, Htarget | apply drawing_frames]
    | apply drawing_broke_off].
Qed.

(** One turn of the loop over the values of the target. *)
Lemma returns_kde_of_value_exact w0 F o df item target_name col tcol fs v :
  frames w0 df !! item = Some col ->
  frames w0 df !! target_name = Some tcol ->
  returns (drawing w0 (eq F) o) (kde_of_value df item target_name fs v)
          (fun _ => drawing w0 (eq (kde_figure item fs col tcol v F)) o).
Proof.
  intros Hitem Htarget. unfold kde_of_value.
  read_col reads_df_eq.
  eapply returns_read_then; [apply reads_df_mask | apply drawing_frames |].
  eapply returns_read_then;
    [apply reads_lift, (frame_mask_getitem _ _ _ _ Hitem) | apply drawing_frames |].
  read_col reads_df_eq.
  eapply returns_read_then; [apply reads_df_mask | apply drawing_frames |].
  unfold sns_kdeplot. draw_step. draw_step. draw_stmt.
Qed.

Lemma returns_kde_loop_exact w0 o df item target_name col tcol fs :
  frames w0 df !! item = Some col ->
  frames w0 df !! target_name = Some tcol ->
  forall vs F,
    returns (drawing w0 (eq F) o)
            (for_each vs (kde_of_value df item target_name fs))
            (fun _ => drawing w0
                        (eq (fold_left (fun fig v => kde_figure item fs col tcol v fig)
                                       vs F)) o).
Proof.
  intros Hitem Htarget. induction vs as [|v vs IH]; intros F; simpl.
  - apply returns_ret. auto.
  - eapply returns_bind;
      [eapply returns_kde_of_value_exact; eassumption | intros ?].
    apply IH.
Qed.

(** The loop only touches the third panel. *)
Lemma kde_loop_third_panel item fs col tcol size p1 p2 : forall vs p3,
  fold_left (fun fig v => kde_figure item fs col tcol v fig) vs
            (mkFigure size [p1; p2; p3] 2)
  = mkFigure size [p1; p2; fold_left (fun ax v => kde_axes item fs col tcol v ax) vs p3] 2.
Proof.
  induction vs as [|v vs IH]; intros p3; simpl; [reflexivity |].
  rewrite <- IH. reflexivity.
Qed.

Lemma label_value_axis_fresh name g sh arts yl xt yb t lg :
  yb = None \/ yb = Some name ->
  label_value_axis name (mkAxes g sh arts yl xt yb t lg)
  = mkAxes g sh arts yl xt (Some name) t lg.
Proof.
  unfold label_value_axis, set_ylabel. simpl.
  intros [-> | ->]; [reflexivity |].
  destruct (String.eqb_spec name "") as [-> | _]; reflexivity.
Qed.

Lemma kde_loop_axes item fs col tcol g sh yl xt : forall vs arts yb t lg,
  yb = None \/ yb = Some item ->
  fold_left (fun ax v => kde_axes item fs col tcol v ax) vs
            (mkAxes g sh arts yl xt yb t lg)
  = mkAxes g sh (arts ++ map (kde_plot col tcol) vs) yl xt
           (match vs with [] => yb | _ :: _ => Some item end)
           (match vs with [] => t | _ :: _ => Some ([Lit item], fs) end)
           (match vs with [] => lg | _ :: _ => Some (fs - 1)%Z end).
Proof.
  induction vs as [|v vs IH]; intros arts yb t lg Hyb; simpl.
  - now rewrite app_nil_r.
  - unfold kde_axes at 2. unfold add_plot. simpl.
    rewrite (label_value_axis_fresh _ _ _ _ _ _ _ _ _ Hyb).
    unfold set_legend, set_title. simpl.
    rewrite IH by (now right). rewrite <- app_assoc. simpl.
    destruct vs; reflexivity.
Qed.

(** Lines 94-108 with a numeric target and two distinct columns. *)
Lemma returns_fig3_numeric w0 o df item target_name col tcol p1 p2 color fs
    v0 v1 lim :
  item <> target_name ->
  frames w0 df !! item = Some col ->
  frames w0 df !! target_name = Some tcol ->
  axis_limits v0 v1 = inr lim ->
  shares_y p1 = true -> shares_y p2 = true ->
  ylim p1 = Some lim -> ylim p2 = Some lim ->
  geometry p1 = (1, 3, 1)%nat -> geometry p2 = (1, 3, 2)%nat ->
  returns (drawing w0
             (eq (mkFigure (Some (15, 8)%Z)
                    (p1 :: p2 :: waiting_panels 3 lim 2 1) 1)) o)
          (fig3 df item target_name "numeric" 3 color fs v0 v1)
          (fun _ =>
             drawing w0
               (eq (mkFigure (Some (15, 8)%Z)
                      [p1; p2; untitled_scatter_panel col tcol lim color] 2)) o).
Proof.
  intros Hne Hitem Htarget Hlim Hs1 Hs2 Hy1 Hy2 Hg1 Hg2. unfold fig3.
  apply String.eqb_neq in Hne. rewrite Hne. simpl negb. cbv iota.
  eapply returns_bind; [apply returns_subplot_exact; lia | intros ?].
  eapply returns_bind.
  - simpl (_ =? _). cbv iota.
    read_col reads_getitem. read_col reads_getitem. draw_step. draw_stmt.
  - intros ?.
    eapply returns_weaken; [draw_stmt | intros w Hw; exact Hw |].
    intros ? w Hw. eapply drawing_figure; [| exact Hw].
    destruct p1, p2. simpl in *. subst. reflexivity.
Qed.

(** Line 97 with a target that is not a column. *)
Lemma raises_in_fig3 w0 F o df item target_name color fs v0 v1 :
  item <> target_name ->
  frames w0 df !! target_name = None ->
  raises_in (drawing w0 (eq F) o)
            (fig3 df item target_name "numeric" 3 color fs v0 v1)
            (KeyError target_name) (broke_off w0 o).
Proof.
  intros Hne Htarget. unfold fig3.
  apply String.eqb_neq in Hne. rewrite Hne. simpl negb. cbv iota.
  eapply raises_in_later; [apply returns_subplot_exact; lia | intros ?].
  apply raises_in_now. simpl (_ =? _). cbv iota. apply raises_in_now.
  eapply raises_in_weaken;
    [eapply raises_in_fails; [apply fails_getitem, Htarget | apply drawing_frames]
    | apply drawing_broke_off].
Qed.

(** Lines 94-108 with a categorical target and two distinct columns. *)
Lemma returns_fig3_categorical w0 o df item target_name col tcol p1 p2 color fs
    v0 v1 lim :
  item <> target_name ->
  frames w0 df !! item = Some col ->
  frames w0 df !! target_name = Some tcol ->
  axis_limits v0 v1 = inr lim ->
  shares_y p1 = true -> shares_y p2 = true ->
  ylim p1 = Some lim -> ylim p2 = Some lim ->
  geometry p1 = (1, 3, 1)%nat -> geometry p2 = (1, 3, 2)%nat ->
  returns (drawing w0
             (eq (mkFigure (Some (15, 8)%Z)
                    (p1 :: p2 :: waiting_panels 3 lim 2 1) 1)) o)
          (fig3 df item target_name "categorical" 3 color fs v0 v1)
          (fun _ =>
             drawing w0
               (eq (mkFigure (Some (15, 8)%Z)
                      [p1; p2; density_panel item col tcol lim fs] 2)) o).
Proof.
  intros Hne Hitem Htarget Hlim Hs1 Hs2 Hy1 Hy2 Hg1 Hg2. unfold fig3.
  apply String.eqb_neq in Hne. rewrite Hne. simpl negb. cbv iota.
  eapply returns_bind; [apply returns_subplot_exact; lia | intros ?].
  eapply returns_bind.
  - simpl (_ =? _). cbv iota.
    read_col reads_getitem.
    eapply returns_kde_loop_exact; eassumption.
  - intros ?.
    eapply returns_weaken; [draw_stmt | intros w Hw; exact Hw |].
    intros ? w Hw. eapply drawing_figure; [| exact Hw].
    destruct p1, p2. simpl in *. subst.
    unfold select_axes, waiting_panels. simpl.
    rewrite kde_loop_third_panel, kde_loop_axes by (now left). reflexivity.
Qed.

Lemma returns_descriptive_statistics w0 C o df item col data_info :
  frames w0 df !! item = Some col ->
  returns (drawing w0 C o) (descriptive_statistics df item data_info)
          (fun _ => drawing w0 C (o ++ statistics_output item col data_info)).
Proof.
  intros Hitem. unfold descriptive_statistics.
  read_col reads_getitem. draw_step.
  eapply returns_bind
    with (Q := fun _ => drawing w0 C ((o ++ [header_line item])
                                        ++ [info_output item col data_info])).
  - unfold info_output. destruct (info_loc data_info item) as [e | row].
    + eapply returns_except with (P' := drawing w0 C (o ++ [header_line item])).
      * intros w Hw. exists e, w. split; [reflexivity | exact Hw].
      * intros ?. read_col reads_getitem. draw_stmt.
    + apply returns_try.
      eapply returns_read_then;
        [apply reads_lift; reflexivity | apply drawing_frames |].
      draw_stmt.
  - intros ?. draw_step.
    eapply returns_weaken; [draw_stmt | intros w Hw; exact Hw |].
    intros ? w Hw. eapply drawing_output; [| exact Hw].
    unfold statistics_output. now rewrite <- !app_assoc.
Qed.

Lemma returns_correlation_numeric w0 F o df item target_name col tcol fs p s :
  item <> target_name ->
  frames w0 df !! item = Some col ->
  frames w0 df !! target_name = Some tcol ->
  coefficient Pearson (complete_pairs col tcol) = inr p ->
  coefficient Spearman (complete_pairs col tcol) = inr s ->
  returns (drawing w0 (eq F) o)
          (correlation df item target_name "numeric" fs None)
          (fun r w =>
             r = Some (p, s) /\
             drawing w0
               (eq (on_gca (set_title (coefficients_title p s) fs) F))
               (o ++ correlation_output item target_name p s) w).
Proof.
  intros Hne Hitem Htarget Hp Hs. unfold correlation.
  apply String.eqb_neq in Hne. rewrite Hne. simpl.
  eapply returns_read_then;
    [eapply reads_frame_corr; [exact Hitem | exact Htarget | exact Hp]
    | apply drawing_frames |].
  eapply returns_read_then;
    [eapply reads_frame_corr; [exact Hitem | exact Htarget | exact Hs]
    | apply drawing_frames |].
  draw_step. draw_step. draw_step. draw_step.
  apply returns_ret. intros w Hw. split; [reflexivity |].
  eapply drawing_output; [| exact Hw].
  unfold correlation_output. now rewrite <- !app_assoc.
Qed.

(** Lines 124-125 with a coefficient that raises. *)
Lemma raises_in_correlation w0 C o df item target_name col tcol fs e :
  item <> target_name ->
  frames w0 df !! item = Some col ->
  frames w0 df !! target_name = Some tcol ->
  coefficients item target_name "numeric" col tcol = inl e ->
  raises_in (drawing w0 C o)
            (correlation df item target_name "numeric" fs None) e (broke_off w0 o).
Proof.
  intros Hne Hitem Htarget He. unfold correlation.
  unfold coefficients in He.
  apply String.eqb_neq in Hne. rewrite Hne in *. simpl in *.
  assert (Hfr : forall w, drawing w0 C o w -> frames w = frames w0)
    by apply drawing_frames.
  destruct (coefficient Pearson (complete_pairs col tcol)) as [e1 | p] eqn:Hp.
  - injection He as <-. apply raises_in_now.
    eapply raises_in_weaken;
      [eapply raises_in_fails;
         [eapply fails_frame_corr; [exact Hitem | exact Htarget | exact Hp]
         | exact Hfr]
      | apply drawing_broke_off].
  - destruct (coefficient Spearman (complete_pairs col tcol)) as [e2 | s] eqn:Hs;
      [| discriminate].
    injection He as <-.
    eapply raises_in_read_then;
      [eapply reads_frame_corr; [exact Hitem | exact Htarget | exact Hp]
      | exact Hfr |].
    apply raises_in_now.
    eapply raises_in_weaken;
      [eapply raises_in_fails;
         [eapply fails_frame_corr; [exact Hitem | exact Htarget | exact Hs]
         | exact Hfr]
      | apply drawing_broke_off].
Qed.

Lemma returns_correlation_none w0 F o df item target_name target_type fs :
  negb (item =? target_name) && (target_type =? "numeric") = false ->
  returns (drawing w0 (eq F) o)
          (correlation df item target_name target_type fs None)
          (fun r w => r = None /\ drawing w0 (eq F) o w).
Proof.
  intros Hc. unfold correlation.
  destruct (negb (item =? target_name)); simpl in Hc |- *;
    [rewrite Hc |]; apply returns_ret; auto.
Qed.

Lemma returns_conclusion w0 F pre post item descr_dict :
  returns (fun w => w = shown w0 F pre post) (conclusion item descr_dict)
          (fun _ w => w = shown w0 F pre
                            (post ++ conclusion_output (annotation descr_dict item))).
Proof.
  unfold conclusion.
  assert (Hcase : (exists e, dict_getitem descr_dict item = inl e
                             /\ annotation descr_dict item = None)
                  \/ (exists v, dict_getitem descr_dict item = inr v
                                /\ annotation descr_dict item = Some v)).
  { destruct descr_dict as [d |]; simpl; [| eauto].
    destruct (d !! item); eauto. }
  destruct Hcase as [(e & -> & ->) | (v & -> & ->)].
  - eapply returns_except with (P' := fun w => w = shown w0 F pre post).
    + intros w Hw. exists e, w. split; [reflexivity | exact Hw].
    + intros ?. apply returns_ret. intros w ->.
      simpl. now rewrite app_nil_r.
  - apply returns_try.
    eapply returns_read_then;
      [apply reads_lift; reflexivity | apply shown_frames |].
    apply returns_print_shown.
Qed.

(** *** The whole call *)

Lemma coefficients_same_column item target_type col tcol :
  coefficients item item target_type col tcol = inr None.
Proof. unfold coefficients. now rewrite String.eqb_refl. Qed.

Lemma coefficients_categorical item target_name col tcol :
  coefficients item target_name "categorical" col tcol = inr None.
Proof. unfold coefficients. simpl. now rewrite andb_false_r. Qed.

Lemma coefficients_numeric item target_name col tcol r :
  item <> target_name ->
  coefficients item target_name "numeric" col tcol = inr r ->
  exists p s,
    coefficient Pearson (complete_pairs col tcol) = inr p /\
    coefficient Spearman (complete_pairs col tcol) = inr s /\
    r = Some (p, s).
Proof.
  intros Hne. unfold coefficients.
  apply String.eqb_neq in Hne. rewrite Hne. simpl.
  destruct (coefficient Pearson (complete_pairs col tcol)) as [e | p];
    [discriminate |].
  destruct (coefficient Spearman (complete_pairs col tcol)) as [e | s];
    [discriminate |].
  intros H. injection H as <-. eauto.
Qed.

(** The statements up to line 72. *)
Ltac enter_call w0 Hin :=
  unfold num_variable_analysis; rewrite Hin; simpl py_assert;
  eapply returns_bind with (Q := fun _ w => w = w0);
    [apply returns_ret; auto | intros ?];
  eapply returns_bind; [apply returns_subplots_exact | intros ?].

Ltac enter_raising_call w0 Hin :=
  unfold num_variable_analysis; rewrite Hin; simpl py_assert;
  eapply raises_in_later with (R := fun _ w => w = w0);
    [apply returns_ret; auto | intros ?];
  eapply raises_in_later; [apply returns_subplots_exact | intros ?].

(** A call with a valid kind of target and two columns of the table, whose
    reductions, limits and coefficients the libraries accept, returns;
    the world it leaves is the one in which [profile_figure] was shown. *)
Lemma returns_profile_figure w0 df item target_name target_type (col tcol : Series)
    y_min y_max lim r bins color fs descr_dict data_info :
  valid_target_type target_type ->
  frames w0 df !! item = Some col ->
  frames w0 df !! target_name = Some tcol ->
  value_range col = inr (y_min, y_max) ->
  axis_limits y_min y_max = inr lim ->
  coefficients item target_name target_type col tcol = inr r ->
  returns (fun w => w = w0)
    (num_variable_analysis df item target_name target_type bins color fs
                           descr_dict data_info)
    (fun r' w =>
       r' = r /\
       w = shown w0
             (profile_figure item target_name target_type col tcol lim r
                             bins color fs)
             (report item target_name col data_info r)
             (conclusion_output (annotation descr_dict item) ++ [closing])).
Proof.
  intros Hvalid Hitem Htarget Hrange Hlim Hcoef.
  destruct (value_range_inr _ _ _ Hrange) as (mx & mn & Hmx & Hmn & -> & ->).
  pose proof Hvalid as Hin. apply valid_target_type_in in Hin.
  enter_call w0 Hin.
  read_col reads_item_max. read_col reads_item_min.
  read_col reads_item_min. read_col reads_item_max.
  unfold profile_figure.
  destruct (String.eqb_spec item target_name) as [Heq | Hne]; simpl negb; cbv iota.
  - (* the same column: two panels *)
    subst target_name. rewrite Hitem in Htarget. injection Htarget as <-.
    rewrite coefficients_same_column in Hcoef. injection Hcoef as <-.
    eapply returns_bind;
      [eapply returns_fig1_exact; [eassumption | eassumption | now left]
      | intros ?].
    eapply returns_bind;
      [eapply returns_fig2_exact;
         [eassumption | right; eassumption | eassumption | now left]
      | intros ?].
    unfold fig3. rewrite String.eqb_refl. simpl negb. cbv iota.
    eapply returns_bind with (Q := fun _ => drawing w0 _ _);
      [apply returns_ret; intros w Hw; exact Hw | intros ?].
    eapply returns_bind;
      [eapply returns_descriptive_statistics; eassumption | intros ?].
    eapply returns_bind; [apply returns_correlation_none | intros r].
    { now rewrite String.eqb_refl. }
    apply returns_assume. intros ->.
    draw_step.
    eapply returns_bind; [apply returns_conclusion | intros ?].
    draw_step.
    apply returns_ret. intros w ->. split; reflexivity.
  - (* two columns: three panels *)
    eapply returns_bind;
      [eapply returns_fig1_exact; [eassumption | eassumption | now right]
      | intros ?].
    eapply returns_bind;
      [eapply returns_fig2_exact;
         [eassumption | right; eassumption | eassumption | now right]
      | intros ?].
    destruct Hvalid as [-> | ->].
    + destruct (coefficients_numeric _ _ _ _ _ Hne Hcoef) as (p & s & Hp & Hs & ->).
      eapply returns_bind;
        [eapply returns_fig3_numeric; try eassumption; reflexivity | intros ?].
      eapply returns_bind;
        [eapply returns_descriptive_statistics; eassumption | intros ?].
      eapply returns_bind;
        [eapply returns_correlation_numeric; eassumption | intros r].
      apply returns_assume. intros ->.
      draw_step.
      eapply returns_bind; [apply returns_conclusion | intros ?].
      draw_step.
      apply returns_ret. intros w ->. split; reflexivity.
    + rewrite coefficients_categorical in Hcoef. injection Hcoef as <-.
      eapply returns_bind;
        [eapply returns_fig3_categorical; try eassumption; reflexivity | intros ?].
      eapply returns_bind;
        [eapply returns_descriptive_statistics; eassumption | intros ?].
      eapply returns_bind; [apply returns_correlation_none | intros r].
      { simpl. now rewrite andb_false_r. }
      apply returns_assume. intros ->.
      draw_step.
      eapply returns_bind; [apply returns_conclusion | intros ?].
      draw_step.
      apply returns_ret. intros w ->. split; reflexivity.
Qed.

Lemma run_profile_figure w df item target_name target_type (col tcol : Series)
    y_min y_max lim r bins color fs descr_dict data_info :
  valid_target_type target_type ->
  frames w df !! item = Some col ->
  frames w df !! target_name = Some tcol ->
  value_range col = inr (y_min, y_max) ->
  axis_limits y_min y_max = inr lim ->
  coefficients item target_name target_type col tcol = inr r ->
  num_variable_analysis df item target_name target_type bins color fs
                        descr_dict data_info w
  = (inr r,
     shown w
       (profile_figure item target_name target_type col tcol lim r bins color fs)
       (report item target_name col data_info r)
       (conclusion_output (annotation descr_dict item) ++ [closing])).
Proof.
  intros Hvalid Hitem Htarget Hrange Hlim Hcoef.
  destruct (returns_profile_figure w df item target_name target_type col tcol
              y_min y_max lim r bins color fs descr_dict data_info
              Hvalid Hitem Htarget Hrange Hlim Hcoef w eq_refl)
    as (r' & w' & E & -> & ->).
  exact E.
Qed.

(** *** Calls that raise *)

(** An unknown [item]: line 70 raises with the blank figure open. *)
Lemma raise_unknown_item w df item target_name target_type bins color fs
    descr_dict data_info :
  valid_target_type target_type ->
  frames w df !! item = None ->
  num_variable_analysis df item target_name target_type bins color fs
                        descr_dict data_info w
  = (inl (KeyError item),
     mkWorld (frames w) (blank_figure (panel_count item target_name) :: figures w)
             (output w)).
Proof.
  intros Hvalid Hitem.
  assert (H : raises_in (fun w' => w' = w)
                (num_variable_analysis df item target_name target_type bins color
                                       fs descr_dict data_info)
                (KeyError item)
                (drawing w (eq (blank_figure (panel_count item target_name))) [])).
  { apply valid_target_type_in in Hvalid.
    enter_raising_call w Hvalid. fold (panel_count item target_name).
    apply raises_in_now. unfold item_max. apply raises_in_now.
    eapply raises_in_fails; [apply fails_getitem, Hitem | apply drawing_frames]. }
  destruct (H w eq_refl) as (w' & E & Hw').
  rewrite E. rewrite (drawing_world _ _ _ _ Hw'). simpl.
  now rewrite app_nil_r.
Qed.

(** A reduction of line 70 raises. *)
Lemma raise_in_range w df item target_name target_type (col : Series) e
    bins color fs descr_dict data_info :
  valid_target_type target_type ->
  frames w df !! item = Some col ->
  value_range col = inl e ->
  exists w',
    num_variable_analysis df item target_name target_type bins color fs
                          descr_dict data_info w = (inl e, w') /\
    broke_off w [] w'.
Proof.
  intros Hvalid Hitem Hrange.
  apply (fun H : raises_in (fun w' => w' = w) _ e (broke_off w []) => H w eq_refl).
  apply valid_target_type_in in Hvalid.
  enter_raising_call w Hvalid.
  unfold value_range in Hrange.
  destruct (series_max col) as [e1 | mx] eqn:Hmx.
  - injection Hrange as <-. apply raises_in_now.
    eapply raises_in_weaken;
      [eapply raises_in_fails;
         [eapply fails_item_max; eassumption | apply drawing_frames]
      | apply drawing_broke_off].
  - destruct (series_min col) as [e2 | mn] eqn:Hmn; [| discriminate].
    injection Hrange as <-.
    read_then_raise reads_item_max.
    apply raises_in_now.
    eapply raises_in_weaken;
      [eapply raises_in_fails;
         [eapply fails_item_min; eassumption | apply drawing_frames]
      | apply drawing_broke_off].
Qed.

(** Line 77 raises: the axis refuses the limits. *)
Lemma raise_in_limits w df item target_name target_type (col : Series)
    y_min y_max e bins color fs descr_dict data_info :
  valid_target_type target_type ->
  frames w df !! item = Some col ->
  value_range col = inr (y_min, y_max) ->
  axis_limits y_min y_max = inl e ->
  exists w',
    num_variable_analysis df item target_name target_type bins color fs
                          descr_dict data_info w = (inl e, w') /\
    broke_off w [] w'.
Proof.
  intros Hvalid Hitem Hrange Hlim.
  destruct (value_range_inr _ _ _ Hrange) as (mx & mn & Hmx & Hmn & -> & ->).
  apply (fun H : raises_in (fun w' => w' = w) _ e (broke_off w []) => H w eq_refl).
  apply valid_target_type_in in Hvalid.
  enter_raising_call w Hvalid.
  read_then_raise reads_item_max. read_then_raise reads_item_min.
  read_then_raise reads_item_min. read_then_raise reads_item_max.
  apply raises_in_now.
  eapply raises_in_fig1; [eassumption | eassumption |].
  destruct (item =? target_name); simpl; auto.
Qed.

(** An unknown [target_name] beside a known [item]: the second panel
    (categorical target) or the third (numeric target) raises. *)
Lemma raise_unknown_target w df item target_name target_type (col : Series)
    y_min y_max lim bins color fs descr_dict data_info :
  valid_target_type target_type ->
  frames w df !! item = Some col ->
  value_range col = inr (y_min, y_max) ->
  axis_limits y_min y_max = inr lim ->
  item <> target_name ->
  frames w df !! target_name = None ->
  exists w',
    num_variable_analysis df item target_name target_type bins color fs
                          descr_dict data_info w = (inl (KeyError target_name), w') /\
    broke_off w [] w'.
Proof.
  intros Hvalid Hitem Hrange Hlim Hne Htarget.
  destruct (value_range_inr _ _ _ Hrange) as (mx & mn & Hmx & Hmn & -> & ->).
  pose proof Hne as Hneb. apply String.eqb_neq in Hneb.
  apply (fun H : raises_in (fun w' => w' = w) _ (KeyError target_name)
                           (broke_off w []) => H w eq_refl).
  pose proof Hvalid as Hin. apply valid_target_type_in in Hin.
  enter_raising_call w Hin. rewrite Hneb. simpl negb. cbv iota.
  read_then_raise reads_item_max. read_then_raise reads_item_min.
  read_then_raise reads_item_min. read_then_raise reads_item_max.
  eapply raises_in_later;
    [eapply returns_fig1_exact; [eassumption | eassumption | now right]
    | intros ?].
  destruct Hvalid as [-> | ->].
  - eapply raises_in_later;
      [eapply (returns_fig2_exact w [] df item target_name "numeric" col col 3);
         [eassumption | now left | eassumption | now right]
      | intros ?].
    apply raises_in_now. apply raises_in_fig3; assumption.
  - apply raises_in_now.
    apply raises_in_fig2; [discriminate | assumption | now right].
Qed.

(** Line 124 or 125 raises: a coefficient cannot be computed.  The
    statistics are printed by then. *)
Lemma raise_in_coefficients w df item target_name target_type (col tcol : Series)
    y_min y_max lim e bins color fs descr_dict data_info :
  valid_target_type target_type ->
  frames w df !! item = Some col ->
  frames w df !! target_name = Some tcol ->
  value_range col = inr (y_min, y_max) ->
  axis_limits y_min y_max = inr lim ->
  coefficients item target_name target_type col tcol = inl e ->
  exists w',
    num_variable_analysis df item target_name target_type bins color fs
                          descr_dict data_info w = (inl e, w') /\
    broke_off w (statistics_output item col data_info) w'.
Proof.
  intros Hvalid Hitem Htarget Hrange Hlim Hcoef.
  destruct (value_range_inr _ _ _ Hrange) as (mx & mn & Hmx & Hmn & -> & ->).
  assert (Hne : item <> target_name).
  { intros <-. now rewrite coefficients_same_column in Hcoef. }
  assert (Hnum : target_type = "numeric").
  { destruct Hvalid as [-> | ->]; [reflexivity |].
    now rewrite coefficients_categorical in Hcoef. }
  subst target_type.
  pose proof Hne as Hneb. apply String.eqb_neq in Hneb.
  apply (fun H : raises_in (fun w' => w' = w) _ e
                           (broke_off w (statistics_output item col data_info))
         => H w eq_refl).
  pose proof Hvalid as Hin. apply valid_target_type_in in Hin.
  enter_raising_call w Hin. rewrite Hneb. simpl negb. cbv iota.
  read_then_raise reads_item_max. read_then_raise reads_item_min.
  read_then_raise reads_item_min. read_then_raise reads_item_max.
  eapply raises_in_later;
    [eapply returns_fig1_exact; [eassumption | eassumption | now right]
    | intros ?].
  eapply raises_in_later;
    [eapply returns_fig2_exact;
       [eassumption | right; eassumption | eassumption | now right]
    | intros ?].
  eapply raises_in_later;
    [eapply returns_fig3_numeric; try eassumption; reflexivity | intros ?].
  eapply raises_in_later;
    [eapply returns_descriptive_statistics; eassumption | intros ?].
  apply raises_in_now.
  eapply (raises_in_correlation w _ ([] ++ statistics_output item col data_info));
    eassumption.
Qed.

(** How any call ends. *)
Lemma outcome_num_variable_analysis w df item target_name target_type bins color fs
    descr_dict data_info :
  fst (num_variable_analysis df item target_name target_type bins color fs
                             descr_dict data_info w)
  = outcome (frames w df) item target_name target_type.
Proof.
  unfold outcome.
  destruct (existsb (String.eqb target_type) target_types) eqn:Hin;
    [| unfold num_variable_analysis; rewrite Hin; reflexivity].
  apply valid_target_type_in in Hin.
  destruct (frames w df !! item) as [col |] eqn:Hitem;
    [| now rewrite (raise_unknown_item w df item target_name target_type bins color
                      fs descr_dict data_info Hin Hitem)].
  destruct (value_range col) as [e | [y_min y_max]] eqn:Hrange.
  { destruct (raise_in_range w df item target_name target_type col e bins color fs
                descr_dict data_info Hin Hitem Hrange) as (w' & E & _).
    now rewrite E. }
  destruct (axis_limits y_min y_max) as [e | lim] eqn:Hlim.
  { destruct (raise_in_limits w df item target_name target_type col y_min y_max e
                bins color fs descr_dict data_info Hin Hitem Hrange Hlim)
      as (w' & E & _).
    now rewrite E. }
  destruct (String.eqb_spec item target_name) as [<- | Hne].
  { rewrite (run_profile_figure w df item item target_type col col y_min y_max lim
               None bins color fs descr_dict data_info Hin Hitem Hitem Hrange Hlim
               (coefficients_same_column _ _ _ _)).
    reflexivity. }
  destruct (frames w df !! target_name) as [tcol |] eqn:Htarget.
  - destruct (coefficients item target_name target_type col tcol) as [e | r] eqn:Hc.
    + destruct (raise_in_coefficients w df item target_name target_type col tcol
                  y_min y_max lim e bins color fs descr_dict data_info
                  Hin Hitem Htarget Hrange Hlim Hc) as (w' & E & _).
      now rewrite E.
    + now rewrite (run_profile_figure w df item target_name target_type col tcol
                     y_min y_max lim r bins color fs descr_dict data_info
                     Hin Hitem Htarget Hrange Hlim Hc).
  - destruct (raise_unknown_target w df item target_name target_type col
                y_min y_max lim bins color fs descr_dict data_info
                Hin Hitem Hrange Hlim Hne Htarget) as (w' & E & _).
    now rewrite E.
Qed.

(** A call that returns: what it was given, what the libraries answered,
    and the world it leaves. *)
Lemma returned_call w df item target_name target_type bins color fs
    descr_dict data_info r w' :
  num_variable_analysis df item target_name target_type bins color fs
                        descr_dict data_info w = (inr r, w') ->
  exists (col tcol : Series) y_min y_max lim,
    valid_target_type target_type /\
    frames w df !! item = Some col /\
    frames w df !! target_name = Some tcol /\
    value_range col = inr (y_min, y_max) /\
    axis_limits y_min y_max = inr lim /\
    coefficients item target_name target_type col tcol = inr r /\
    w' = shown w
           (profile_figure item target_name target_type col tcol lim r
                           bins color fs)
           (report item target_name col data_info r)
           (conclusion_output (annotation descr_dict item) ++ [closing]).
Proof.
  intros E.
  pose proof (outcome_num_variable_analysis w df item target_name target_type
                bins color fs descr_dict data_info) as Ho.
  rewrite E in Ho. simpl in Ho. unfold outcome in Ho.
  destruct (existsb (String.eqb target_type) target_types) eqn:Hin;
    [| discriminate].
  apply valid_target_type_in in Hin.
  destruct (frames w df !! item) as [col |] eqn:Hitem; [| discriminate].
  destruct (value_range col) as [e | [y_min y_max]] eqn:Hrange; [discriminate |].
  destruct (axis_limits y_min y_max) as [e | lim] eqn:Hlim; [discriminate |].
  assert (Hcase : exists tcol : Series,
             frames w df !! target_name = Some tcol /\
             coefficients item target_name target_type col tcol = inr r).
  { destruct (String.eqb_spec item target_name) as [<- | Hne].
    - injection Ho as ->. exists col.
      split; [exact Hitem | apply coefficients_same_column].
    - destruct (frames w df !! target_name) as [tcol |]; [| discriminate].
      exists tcol. split; [reflexivity | now symmetry]. }
  destruct Hcase as (tcol & Htarget & Hcoef).
  exists col, tcol, y_min, y_max, lim.
  repeat (split; [assumption |]).
  rewrite (run_profile_figure w df item target_name target_type col tcol
             y_min y_max lim r bins color fs descr_dict data_info
             Hin Hitem Htarget Hrange Hlim Hcoef) in E.
  now injection E.
Qed.

(** *** The tables and the output stream *)

Lemma frame_safe_ret {A} (a : A) : frame_safe (ret a).
Proof. intros w. split; [reflexivity | exists []; simpl; now rewrite app_nil_r]. Qed.

Lemma frame_safe_raise {A} (e : exn) : frame_safe (@raise _ A e).
Proof. intros w. split; [reflexivity | exists []; simpl; now rewrite app_nil_r]. Qed.

Lemma frame_safe_lift {A} (r : exn + A) : frame_safe (lift r).
Proof. intros w. split; [reflexivity | exists []; simpl; now rewrite app_nil_r]. Qed.

Lemma frame_safe_deref df : frame_safe (deref df).
Proof. intros w. split; [reflexivity | exists []; simpl; now rewrite app_nil_r]. Qed.

Lemma frame_safe_modify f : frame_safe (modify_figures f).
Proof. intros w. split; [reflexivity | exists []; simpl; now rewrite app_nil_r]. Qed.

Lemma frame_safe_write x : frame_safe (write x).
Proof. intros w. split; [reflexivity | exists [x]; reflexivity]. Qed.

Lemma frame_safe_show : frame_safe plt_show.
Proof.
  intros w. unfold plt_show. destruct pyplot_backend; simpl.
  - split; [reflexivity | eexists; reflexivity].
  - split; [reflexivity | exists []; now rewrite app_nil_r].
Qed.

(** An assignment into a table is not frame safe: the property tells the
    function apart from code that writes to its argument. *)
Lemma setitem_not_frame_safe df key col : ~ frame_safe (df_setitem df key col).
Proof.
  intros H. destruct (H (mkWorld (fun _ => empty) [] [])) as [Hfr _].
  apply (f_equal (fun fr => fr df !! key)) in Hfr. simpl in Hfr.
  rewrite Pos.eqb_refl, lookup_insert_eq, lookup_empty in Hfr. discriminate.
Qed.

Lemma frame_safe_bind {A B} (m : M A) (k : A -> M B) :
  frame_safe m -> (forall a, frame_safe (k a)) -> frame_safe (bind m k).
Proof.
  intros Hm Hk w. unfold bind. specialize (Hm w).
  destruct (m w) as [[e | a] w1]; simpl in Hm; [exact Hm |].
  destruct Hm as (Hfr & o1 & Ho1). destruct (Hk a w1) as (Hfr2 & o2 & Ho2).
  split; [congruence |]. exists (o1 ++ o2). rewrite Ho2, Ho1.
  now rewrite app_assoc.
Qed.

Lemma frame_safe_try {A} (body : M A) (handler : exn -> M A) :
  frame_safe body -> (forall e, frame_safe (handler e)) ->
  frame_safe (try_except body handler).
Proof.
  intros Hb Hh w. unfold try_except. specialize (Hb w).
  destruct (body w) as [[e | a] w1]; simpl in Hb; [| exact Hb].
  destruct Hb as (Hfr & o1 & Ho1). destruct (Hh e w1) as (Hfr2 & o2 & Ho2).
  split; [congruence |]. exists (o1 ++ o2). rewrite Ho2, Ho1.
  now rewrite app_assoc.
Qed.

Lemma frame_safe_for_each {A} (xs : list A) (body : A -> M unit) :
  (forall x, frame_safe (body x)) -> frame_safe (for_each xs body).
Proof.
  intros Hb. induction xs as [|x xs IH]; simpl.
  - apply frame_safe_ret.
  - apply frame_safe_bind; [apply Hb | intros ?; exact IH].
Qed.

Lemma frame_safe_if {A} (c : bool) (m1 m2 : M A) :
  frame_safe m1 -> frame_safe m2 -> frame_safe (if c then m1 else m2).
Proof. now destruct c. Qed.

Lemma frame_safe_subplot nrows ncols index : frame_safe (plt_subplot nrows ncols index).
Proof.
  unfold plt_subplot. apply frame_safe_if;
    [apply frame_safe_modify | apply frame_safe_raise].
Qed.

Lemma frame_safe_assert c msg : frame_safe (py_assert c msg).
Proof.
  unfold py_assert. apply frame_safe_if; [apply frame_safe_ret | apply frame_safe_raise].
Qed.

Ltac frame_safe_tac :=
  repeat first
    [ apply frame_safe_bind; [| intros ?]
    | apply frame_safe_try; [| intros ?]
    | apply frame_safe_for_each; intros ?
    | apply frame_safe_if
    | apply frame_safe_ret
    | apply frame_safe_raise
    | apply frame_safe_lift
    | apply frame_safe_deref
    | apply frame_safe_modify
    | apply frame_safe_write
    | apply frame_safe_show
    | apply frame_safe_subplot
    | apply frame_safe_assert ].

Lemma frame_safe_num_variable_analysis df item target_name target_type bins color fs
    descr_dict data_info :
  frame_safe (num_variable_analysis df item target_name target_type bins color fs
                                    descr_dict data_info).
Proof.
  unfold num_variable_analysis, fig1, fig2, fig3, descriptive_statistics,
    correlation, conclusion, kde_of_value, item_max, item_min, df_eq, df_mask,
    frame_corr, sns_histplot, sns_boxenplot, sns_kdeplot, sns_plot, df_getitem,
    draw, plt_subplots, plt_ylim, plt_xticks, plt_ylabel, plt_title, plt_legend,
    py_print, display, pass.
  frame_safe_tac.
Qed.

(** *** What a call that returns has printed and shown *)

Lemma rendered_app o1 o2 : rendered (o1 ++ o2) = rendered o1 ++ rendered o2.
Proof.
  induction o1 as [|x o1 IH]; simpl; [reflexivity |].
  destruct x; simpl; now rewrite IH.
Qed.

Lemma rendered_figures figs : rendered (map Rendered figs) = figs.
Proof. induction figs as [|f figs IH]; simpl; [reflexivity | now rewrite IH]. Qed.

Lemma rendered_report item target_name col data_info r :
  rendered (report item target_name col data_info r) = [].
Proof.
  unfold report, statistics_output, info_output, missing_values_output.
  destruct (info_loc data_info item); destruct r as [[p s] |]; reflexivity.
Qed.

Lemma rendered_conclusion entry : rendered (conclusion_output entry ++ [closing]) = [].
Proof. destruct entry; reflexivity. Qed.

Lemma printed_app o1 o2 : printed (o1 ++ o2) = printed o1 ++ printed o2.
Proof. apply List.filter_app. Qed.

Lemma printed_show_output figs fig : printed (show_output figs fig) = [].
Proof.
  unfold show_output. destruct pyplot_backend; [| reflexivity].
  rewrite printed_app. simpl. rewrite app_nil_r.
  induction (rev figs) as [|f fs IH]; [reflexivity | exact IH].
Qed.

(** The figure of the call in the world [shown] describes. *)
Lemma produced_shown w fig pre post :
  rendered pre = [] -> rendered post = [] ->
  produced w (shown w fig pre post) fig.
Proof.
  intros Hpre Hpost. unfold produced, shown, show_output, open_after_show.
  destruct pyplot_backend; simpl.
  - split; [| reflexivity].
    rewrite !rendered_app, Hpre, Hpost, rendered_figures. simpl.
    now rewrite app_nil_r.
  - split; [| reflexivity].
    rewrite !rendered_app, Hpre, Hpost. simpl. now rewrite app_nil_r.
Qed.

Lemma no_conclusion_in_report item target_name col data_info r :
  Forall (fun x => is_conclusion x = false)
         (report item target_name col data_info r).
Proof.
  unfold report, statistics_output, info_output, missing_values_output.
  destruct (info_loc data_info item); destruct r as [[p s] |]; repeat constructor.
Qed.

Lemma no_conclusion_in_show_output figs fig :
  Forall (fun x => is_conclusion x = false) (show_output figs fig).
Proof.
  unfold show_output. destruct pyplot_backend; [| constructor].
  apply Forall_app. split; [| repeat constructor].
  apply List.Forall_forall. intros x Hx. apply in_map_iff in Hx.
  destruct Hx as (f & <- & _). reflexivity.
Qed.

Lemma no_missing_count_in_show_output figs fig :
  Forall (fun x => is_missing_count x = false) (show_output figs fig).
Proof.
  unfold show_output. destruct pyplot_backend; [| constructor].
  apply Forall_app. split; [| repeat constructor].
  apply List.Forall_forall. intros x Hx. apply in_map_iff in Hx.
  destruct Hx as (f & <- & _). reflexivity.
Qed.

Lemma info_loc_unavailable data_info item :
  info_unavailable data_info item <-> exists e, info_loc data_info item = inl e.
Proof.
  destruct data_info as [| rows | entries | ty]; simpl.
  - split; eauto.
  - destruct (rows !! item); split; intros H; eauto; try discriminate.
    destruct H as [e H]. discriminate.
  - split; eauto.
  - split; eauto.
Qed.

(** Limits that are well separated are the limits the axis takes. *)
Lemma axis_limits_well_separated lo hi lim :
  axis_limits lo hi = inr lim -> well_separated lo hi = true -> lim = (lo, hi).
Proof.
  unfold axis_limits, well_separated, nonsingular. intros Hlim Hsep.
  apply andb_prop in Hsep. destruct Hsep as [Hsep Hwide].
  apply andb_prop in Hsep. destruct Hsep as [Horder Hsize].
  apply negb_true_iff in Horder, Hsize, Hwide.
  destruct (finite lo && finite hi); [| discriminate].
  rewrite Horder in Hlim. rewrite Hsize, Hwide in Hlim.
  now injection Hlim.
Qed.

(** A call that raises after the check of line 59 has broken off with its
    figure open and nothing rendered. *)
Lemma broke_off_blank w nx :
  broke_off w [] (mkWorld (frames w) (blank_figure nx :: figures w) (output w)).
Proof.
  split; [reflexivity | split]; simpl.
  - now rewrite app_nil_r.
  - eauto.
Qed.

Lemma raised_call w df item target_name target_type bins color fs
    descr_dict data_info e w' :
  valid_target_type target_type ->
  num_variable_analysis df item target_name target_type bins color fs
                        descr_dict data_info w = (inl e, w') ->
  exists o, broke_off w o w' /\ rendered o = [].
Proof.
  intros Hin E.
  destruct (frames w df !! item) as [col |] eqn:Hitem.
  2: { rewrite (raise_unknown_item w df item target_name target_type bins color
                  fs descr_dict data_info Hin Hitem) in E.
       injection E as _ <-. exists []. split; [apply broke_off_blank | reflexivity]. }
  destruct (value_range col) as [e' | [y_min y_max]] eqn:Hrange.
  { destruct (raise_in_range w df item target_name target_type col e' bins color fs
                descr_dict data_info Hin Hitem Hrange) as (w'' & E' & Hw).
    rewrite E' in E. injection E as _ <-. exists []. now split. }
  destruct (axis_limits y_min y_max) as [e' | lim] eqn:Hlim.
  { destruct (raise_in_limits w df item target_name target_type col y_min y_max e'
                bins color fs descr_dict data_info Hin Hitem Hrange Hlim)
      as (w'' & E' & Hw).
    rewrite E' in E. injection E as _ <-. exists []. now split. }
  destruct (String.eqb_spec item target_name) as [<- | Hne].
  { rewrite (run_profile_figure w df item item target_type col col y_min y_max lim
               None bins color fs descr_dict data_info Hin Hitem Hitem Hrange Hlim
               (coefficients_same_column _ _ _ _)) in E.
    discriminate E. }
  destruct (frames w df !! target_name) as [tcol |] eqn:Htarget.
  - destruct (coefficients item target_name target_type col tcol) as [e' | r] eqn:Hc.
    + destruct (raise_in_coefficients w df item target_name target_type col tcol
                  y_min y_max lim e' bins color fs descr_dict data_info
                  Hin Hitem Htarget Hrange Hlim Hc) as (w'' & E' & Hw).
      rewrite E' in E. injection E as _ <-.
      exists (statistics_output item col data_info). split; [exact Hw |].
      apply (rendered_report item target_name col data_info None).
    + rewrite (run_profile_figure w df item target_name target_type col tcol
                 y_min y_max lim r bins color fs descr_dict data_info
                 Hin Hitem Htarget Hrange Hlim Hc) in E.
      discriminate E.
  - destruct (raise_unknown_target w df item target_name target_type col
                y_min y_max lim bins color fs descr_dict data_info
                Hin Hitem Hrange Hlim Hne Htarget) as (w'' & E' & Hw).
    rewrite E' in E. injection E as _ <-. exists []. now split.
Qed.

(** *** Properties of the specification *)

(** C1, as amended: with a numeric target and two distinct columns of the
    table, a call that returns returns a pair: its first component is the
    Pearson coefficient and its second the Spearman coefficient that pandas
    computes from the rows of the two columns in which neither entry is
    missing.  Nothing bounds the components: a coefficient that is
    undefined comes back as NaN. *)
Theorem numeric_target_returns_coefficient_pair w df item target_name
    (col tcol : Series) bins color fs descr_dict data_info r w' :
  item <> target_name ->
  frames w df !! item = Some col ->
  frames w df !! target_name = Some tcol ->
  num_variable_analysis df item target_name "numeric" bins color fs
                        descr_dict data_info w = (inr r, w') ->
  let complete :=
    List.filter (fun row => negb (isna (fst row)) && negb (isna (snd row)))
                (combine col tcol) in
  exists pearson spearman,
    coefficient Pearson complete = inr pearson /\
    coefficient Spearman complete = inr spearman /\
    r = Some (pearson, spearman).
Proof.
  intros Hne Hitem Htarget E complete.
  destruct (returned_call _ _ _ _ _ _ _ _ _ _ _ _ E)
    as (col' & tcol' & y_min & y_max & lim & _ & Hitem' & Htarget' & _ & _ & Hc & _).
  rewrite Hitem in Hitem'. injection Hitem' as <-.
  rewrite Htarget in Htarget'. injection Htarget' as <-.
  exact (coefficients_numeric _ _ _ _ _ Hne Hc).
Qed.

(** C2: a call whose [target_type] is neither 'numeric' nor 'categorical'
    raises the assertion error with its message, and leaves the world as
    it found it: no figure is opened or rendered and nothing is printed. *)
Theorem invalid_target_type_raises w df item target_name target_type bins color fs
    descr_dict data_info :
  ~ valid_target_type target_type ->
  num_variable_analysis df item target_name target_type bins color fs
                        descr_dict data_info w
  = (inl (AssertionError
            "Please define `target_type` as 'numeric' or 'categorical'"), w).
Proof.
  intros Hinvalid. unfold num_variable_analysis.
  destruct (existsb (String.eqb target_type) target_types) eqn:Hin.
  - apply valid_target_type_in in Hin. contradiction.
  - reflexivity.
Qed.

(** C3: when [item] and [target_name] are the same column and the kind of
    target is valid, the value a call returns is [None], whatever the
    other arguments. *)
Theorem same_column_returns_none w df item target_type bins color fs
    descr_dict data_info r w' :
  valid_target_type target_type ->
  num_variable_analysis df item item target_type bins color fs
                        descr_dict data_info w = (inr r, w') ->
  r = None.
Proof.
  intros Hvalid E.
  pose proof (outcome_num_variable_analysis w df item item target_type bins
                color fs descr_dict data_info) as Ho.
  rewrite E in Ho. simpl in Ho. unfold outcome in Ho.
  apply valid_target_type_in in Hvalid. rewrite Hvalid in Ho.
  destruct (frames w df !! item) as [col |]; [| discriminate].
  destruct (value_range col) as [e | [y_min y_max]]; [discriminate |].
  destruct (axis_limits y_min y_max); [discriminate |].
  rewrite String.eqb_refl in Ho. congruence.
Qed.

(** C4: with a categorical target, the value a call returns is [None], and
    no correlation text is printed: between the output before the call
    and what [plt.show] renders there is only the descriptive block of the
    column of [item]. *)
Theorem categorical_target_returns_none w df item target_name (col : Series)
    bins color fs descr_dict data_info r w' :
  item <> target_name ->
  frames w df !! item = Some col ->
  num_variable_analysis df item target_name "categorical" bins color fs
                        descr_dict data_info w = (inr r, w') ->
  r = None /\
  exists fig,
    output w' = output w
                ++ statistics_output item col data_info
                ++ show_output (figures w) fig
                ++ conclusion_output (annotation descr_dict item) ++ [closing].
Proof.
  intros Hne Hitem E.
  destruct (returned_call _ _ _ _ _ _ _ _ _ _ _ _ E)
    as (col' & tcol & y_min & y_max & lim & _ & Hitem' & _ & _ & _ & Hc & ->).
  rewrite Hitem in Hitem'. injection Hitem' as <-.
  rewrite coefficients_categorical in Hc. injection Hc as <-.
  split; [reflexivity |].
  eexists. reflexivity.
Qed.

(** C5: the info table gives nothing for [item] (it is absent, has no row
    for [item], or has another shape) and [item] is a column of the table.
    Then a call that returns has printed, right after the header, the line
    of the missing values, whose count is the number of entries of the
    column that are missing; and the failed lookup does not show in how
    the call ends, which is the same with any other info table. *)
Theorem missing_count_when_info_unavailable w df item target_name target_type
    (col : Series) bins color fs descr_dict data_info :
  frames w df !! item = Some col ->
  info_unavailable data_info item ->
  (forall r w',
      num_variable_analysis df item target_name target_type bins color fs
                            descr_dict data_info w = (inr r, w') ->
      exists rest,
        output w' = output w
                    ++ header_line item
                       :: Text ([Lit "There are ";
                                 Lit (show_nat (length (List.filter isna col)));
                                 Lit " missing values in '"; Lit item; Lit "'";
                                 Lit nl; Lit "."] ++ [Lit nl])
                       :: rest) /\
  (forall data_info',
      fst (num_variable_analysis df item target_name target_type bins color fs
                                 descr_dict data_info w)
      = fst (num_variable_analysis df item target_name target_type bins color fs
                                   descr_dict data_info' w)).
Proof.
  intros Hitem Hinfo. split.
  - intros r w' E.
    destruct (returned_call _ _ _ _ _ _ _ _ _ _ _ _ E)
      as (col' & tcol & y_min & y_max & lim & _ & Hitem' & _ & _ & _ & _ & ->).
    rewrite Hitem in Hitem'. injection Hitem' as <-.
    apply info_loc_unavailable in Hinfo. destruct Hinfo as [e He].
    eexists. unfold shown, report, statistics_output, info_output.
    rewrite He. unfold missing_values_output, missing_values_line, isna_sum.
    simpl. reflexivity.
  - intros data_info'. now rewrite !outcome_num_variable_analysis.
Qed.

(** C6: a call that returns has printed, after the report and what
    [plt.show] renders, the entry of the annotations for [item] as the
    line of the conclusion when the mapping is given and has the entry,
    and no such line otherwise; the closing text follows, and nothing else
    the call prints is a line of conclusion.  A missing mapping or entry
    does not show in how the call ends, which is the same with any other
    annotations. *)
Theorem conclusion_follows_annotation w df item target_name target_type
    bins color fs descr_dict data_info :
  (forall r w',
      num_variable_analysis df item target_name target_type bins color fs
                            descr_dict data_info w = (inr r, w') ->
      exists body,
        Forall (fun x => is_conclusion x = false) (body ++ [closing]) /\
        output w' = output w ++ body
                    ++ match annotation descr_dict item with
                       | Some v =>
                           [Text [Lit ">>> CONCLUSION:"; Lit " "; Lit v; Lit nl]]
                       | None => []
                       end
                    ++ [closing]) /\
  (forall descr_dict',
      fst (num_variable_analysis df item target_name target_type bins color fs
                                 descr_dict data_info w)
      = fst (num_variable_analysis df item target_name target_type bins color fs
                                   descr_dict' data_info w)).
Proof.
  split.
  - intros r w' E.
    destruct (returned_call _ _ _ _ _ _ _ _ _ _ _ _ E)
      as (col & tcol & y_min & y_max & lim & _ & _ & _ & _ & _ & _ & ->).
    exists (report item target_name col data_info r
              ++ show_output (figures w)
                   (profile_figure item target_name target_type col tcol lim r
                                   bins color fs)).
    split.
    + rewrite <- !app_assoc. apply Forall_app. split.
      * apply no_conclusion_in_report.
      * apply Forall_app. split.
        -- apply no_conclusion_in_show_output.
        -- repeat constructor.
    + unfold shown. simpl output. rewrite <- !app_assoc.
      unfold conclusion_output, conclusion_line.
      destruct (annotation descr_dict item); reflexivity.
  - intros descr_dict'. now rewrite !outcome_num_variable_analysis.
Qed.

(** C7: the kind of target is valid.  The figure of a call that returns
    has three panels when [item] differs from [target_name] and two when
    they are the same column. *)
Theorem figure_has_three_or_two_panels w df item target_name target_type
    bins color fs descr_dict data_info r w' :
  valid_target_type target_type ->
  num_variable_analysis df item target_name target_type bins color fs
                        descr_dict data_info w = (inr r, w') ->
  exists fig,
    produced w w' fig /\
    (item <> target_name -> length (panels fig) = 3%nat) /\
    (item = target_name -> length (panels fig) = 2%nat).
Proof.
  intros _ E.
  destruct (returned_call _ _ _ _ _ _ _ _ _ _ _ _ E)
    as (col & tcol & y_min & y_max & lim & _ & _ & _ & _ & _ & _ & ->).
  eexists. split.
  - apply produced_shown; [apply rendered_report | apply rendered_conclusion].
  - unfold profile_figure.
    destruct (String.eqb_spec item target_name); simpl; split; intros;
      (reflexivity || contradiction).
Qed.



(** C10: two calls on the same table with the same [item], [target_name]
    and [target_type] end the same way, with the same returned value or
    the same exception, whatever [bins], [color], [fontsize],
    [descr_dict] and [data_info] are in each, and whatever was printed or
    drawn before each. *)
Theorem result_independent_of_presentation w1 w2 df item target_name target_type
    bins1 color1 fs1 descr1 info1 bins2 color2 fs2 descr2 info2 :
  frames w1 df = frames w2 df ->
  fst (num_variable_analysis df item target_name target_type bins1 color1 fs1
                             descr1 info1 w1)
  = fst (num_variable_analysis df item target_name target_type bins2 color2 fs2
                               descr2 info2 w2).
Proof.
  intros Hsame. rewrite !outcome_num_variable_analysis. now rewrite Hsame.
Qed.

(** *** Further properties of the function *)

(** X1: when the info table has a row for [item], a call that returns has
    displayed the row after the header, in place of the count of missing
    values: the line of the count is not printed at all. *)
Theorem info_row_replaces_missing_count w df item target_name target_type
    (col : Series) bins color fs descr_dict rows row r w' :
  frames w df !! item = Some col ->
  rows !! item = Some row ->
  num_variable_analysis df item target_name target_type bins color fs
                        descr_dict (InfoFrame rows) w = (inr r, w') ->
  exists rest,
    output w' = output w
                ++ [Text [Lit "==== "; Lit item; Lit " ===="; Lit nl];
                    Display (InfoTable item row);
                    Text [Lit ">>> Statistics:"; Lit nl];
                    Display (DescribeTable col)]
                ++ rest /\
    Forall (fun x => is_missing_count x = false) rest.
Proof.
  intros Hitem Hrow E.
  destruct (returned_call _ _ _ _ _ _ _ _ _ _ _ _ E)
    as (col' & tcol & y_min & y_max & lim & _ & Hitem' & _ & _ & _ & _ & ->).
  rewrite Hitem in Hitem'. injection Hitem' as <-.
  eexists. split.
  - unfold shown, report, statistics_output, info_output, header_line.
    simpl info_loc. rewrite Hrow. simpl output. reflexivity.
  - apply Forall_app. split.
    + destruct r as [[p s] |]; repeat constructor.
    + apply Forall_app. split.
      * apply no_missing_count_in_show_output.
      * destruct (annotation descr_dict item); repeat constructor.
Qed.

(** X3: with a valid kind of target, an [item] that is not a column of the
    table raises its key error on line 70, whatever [target_name] is.
    Nothing is printed, and the figure that line 69 made stays open in
    pyplot, with its blank panels. *)
Theorem unknown_item_leaves_blank_figure w df item target_name target_type bins
    color fs descr_dict data_info :
  valid_target_type target_type ->
  frames w df !! item = None ->
  num_variable_analysis df item target_name target_type bins color fs
                        descr_dict data_info w
  = (inl (KeyError item),
     mkWorld (frames w)
             (mkFigure (Some (15, 8)%Z)
                       (new_grid 1 (if negb (item =? target_name) then 3 else 2) true)
                       (pred (1 * (if negb (item =? target_name) then 3 else 2)))
              :: figures w)
             (output w)).
Proof.
  intros Hvalid Hitem.
  exact (raise_unknown_item w df item target_name target_type bins color fs
           descr_dict data_info Hvalid Hitem).
Qed.

(** X7: with a numeric target and two distinct columns, a call that
    returns returns two coefficients, and the three lines it has printed
    after the statistics show, with the two column names, these same two
    coefficients, Pearson's first. *)
Theorem printed_coefficients_are_returned w df item target_name (col : Series)
    bins color fs descr_dict data_info r w' :
  item <> target_name ->
  frames w df !! item = Some col ->
  num_variable_analysis df item target_name "numeric" bins color fs
                        descr_dict data_info w = (inr r, w') ->
  exists p s rest,
    r = Some (p, s) /\
    output w' = output w
                ++ statistics_output item col data_info
                ++ [Text [Lit ">>> Correlation:"; Lit nl];
                    Text [Lit "  Pearson's  correlation coefficient between '";
                          Lit item; Lit "' and '"; Lit target_name; Lit "' is ";
                          Num3g p; Lit "."; Lit nl];
                    Text [Lit "  Spearman's correlation coefficient between '";
                          Lit item; Lit "' and '"; Lit target_name; Lit "' is ";
                          Num3g s; Lit "."; Lit nl; Lit nl; Lit nl]]
                ++ rest.
Proof.
  intros Hne Hitem E.
  destruct (returned_call _ _ _ _ _ _ _ _ _ _ _ _ E)
    as (col' & tcol & y_min & y_max & lim & _ & Hitem' & _ & _ & _ & Hc & ->).
  rewrite Hitem in Hitem'. injection Hitem' as <-.
  destruct (coefficients_numeric _ _ _ _ _ Hne Hc) as (p & s & _ & _ & ->).
  exists p, s. eexists. split; [reflexivity |].
  unfold shown, report, correlation_output. simpl output.
  rewrite <- ?app_assoc. reflexivity.
Qed.

(** X8: the first panel of the figure of a call that returns holds the
    histogram call on the column of [item] and nothing else, with the bins
    and the color of the call and the density overlay on; seaborn has
    labelled its value axis with [item]; its x tick labels are rotated by
    90 degrees and its title is "Distribition of", as the source spells
    it, followed by [item], in the font size of the call. *)
Theorem first_panel_is_histogram w df item target_name target_type
    (col : Series) bins color fs descr_dict data_info r w' :
  frames w df !! item = Some col ->
  num_variable_analysis df item target_name target_type bins color fs
                        descr_dict data_info w = (inr r, w') ->
  exists fig p1,
    produced w w' fig /\
    panels fig !! 0%nat = Some p1 /\
    plots p1 = [HistPlot col bins true color] /\
    xticks_rotation p1 = Some 90%Z /\
    title p1 = Some ([Lit "Distribition of "; Lit item], fs) /\
    ylabel p1 = Some item /\ legend p1 = None.
Proof.
  intros Hitem E.
  destruct (returned_call _ _ _ _ _ _ _ _ _ _ _ _ E)
    as (col' & tcol & y_min & y_max & lim & _ & Hitem' & _ & _ & _ & _ & ->).
  rewrite Hitem in Hitem'. injection Hitem' as <-.
  eexists.
  exists (distribution_panel (panel_count item target_name) item col lim bins color fs).
  split.
  - apply produced_shown; [apply rendered_report | apply rendered_conclusion].
  - unfold profile_figure, panel_count.
    destruct (item =? target_name); simpl; repeat split.
Qed.

(** X9: the second panel of the figure of a call that returns holds one
    boxen plot call on the column of [item], vertical; the panel is titled
    [item] and its y label is empty.  With a numeric target the call is on
    all rows, in the color of the call; with a categorical target it is
    grouped by the column of the target, without the color, and the x tick
    labels are rotated by 90 degrees. *)
Theorem second_panel_is_boxen_plot w df item target_name target_type
    (col tcol : Series) bins color fs descr_dict data_info r w' :
  frames w df !! item = Some col ->
  frames w df !! target_name = Some tcol ->
  num_variable_analysis df item target_name target_type bins color fs
                        descr_dict data_info w = (inr r, w') ->
  exists fig p2,
    produced w w' fig /\
    panels fig !! 1%nat = Some p2 /\
    title p2 = Some ([Lit item], fs) /\
    ylabel p2 = Some "" /\
    (target_type = "numeric" ->
     plots p2 = [BoxenPlot None col "v" (Some color)] /\
     xticks_rotation p2 = None) /\
    (target_type = "categorical" ->
     plots p2 = [BoxenPlot (Some tcol) col "v" None] /\
     xticks_rotation p2 = Some 90%Z).
Proof.
  intros Hitem Htarget E.
  destruct (returned_call _ _ _ _ _ _ _ _ _ _ _ _ E)
    as (col' & tcol' & y_min & y_max & lim & _ & Hitem' & Htarget' & _ & _ & _ & ->).
  rewrite Hitem in Hitem'. injection Hitem' as <-.
  rewrite Htarget in Htarget'. injection Htarget' as <-.
  eexists.
  exists (dispersion_panel (panel_count item target_name) item target_type
            col tcol lim color fs).
  split.
  - apply produced_shown; [apply rendered_report | apply rendered_conclusion].
  - unfold profile_figure, panel_count. destruct (item =? target_name); simpl;
      (split; [reflexivity |]); unfold dispersion_panel, boxen; simpl;
      (split; [reflexivity |]); (split; [reflexivity |]);
      split; intros ->; split; reflexivity.
Qed.

(** X10: with a numeric target and two distinct columns, the third panel
    of the figure of a call that returns holds the call that plots the
    column of [item] against the column of the target, as markers of size
    3 in the color of the call, with rotated x tick labels; its title
    shows the two coefficients the call returns, Spearman's first. *)
Theorem third_panel_of_numeric_target_is_scatter w df item target_name
    (col tcol : Series) bins color fs descr_dict data_info r w' :
  item <> target_name ->
  frames w df !! item = Some col ->
  frames w df !! target_name = Some tcol ->
  num_variable_analysis df item target_name "numeric" bins color fs
                        descr_dict data_info w = (inr r, w') ->
  exists p s fig p3,
    r = Some (p, s) /\
    produced w w' fig /\
    panels fig !! 2%nat = Some p3 /\
    plots p3 = [LinePlot tcol col "o" 3 color color] /\
    xticks_rotation p3 = Some 90%Z /\
    title p3 = Some ([Lit "Spearman's corr.coeff. = "; Num3g s; Lit nl;
                      Lit "Pearson's corr.coeff. = "; Num3g p], fs) /\
    legend p3 = None.
Proof.
  intros Hne Hitem Htarget E.
  destruct (returned_call _ _ _ _ _ _ _ _ _ _ _ _ E)
    as (col' & tcol' & y_min & y_max & lim & _ & Hitem' & Htarget' & _ & _ & Hc & ->).
  rewrite Hitem in Hitem'. injection Hitem' as <-.
  rewrite Htarget in Htarget'. injection Htarget' as <-.
  destruct (coefficients_numeric _ _ _ _ _ Hne Hc) as (p & s & _ & _ & ->).
  exists p, s. eexists. eexists. split; [reflexivity | split].
  - apply produced_shown; [apply rendered_report | apply rendered_conclusion].
  - unfold profile_figure. apply String.eqb_neq in Hne. rewrite Hne. simpl.
    repeat split.
Qed.

(** X14: [bins], [color] and [fontsize] only change the figure: two calls
    from the same world that differ in them and return have returned the
    same value and printed the same text and tables, and have rendered as
    many figures. *)
Theorem appearance_only_changes_figure w df item target_name target_type
    bins1 color1 fs1 bins2 color2 fs2 descr_dict data_info r1 w1 r2 w2 :
  num_variable_analysis df item target_name target_type bins1 color1 fs1
                        descr_dict data_info w = (inr r1, w1) ->
  num_variable_analysis df item target_name target_type bins2 color2 fs2
                        descr_dict data_info w = (inr r2, w2) ->
  r1 = r2 /\
  printed (output w1) = printed (output w2) /\
  length (rendered (output w1)) = length (rendered (output w2)).
Proof.
  intros E1 E2.
  assert (Hr : r1 = r2).
  { pose proof (outcome_num_variable_analysis w df item target_name target_type
                  bins1 color1 fs1 descr_dict data_info) as H1.
    pose proof (outcome_num_variable_analysis w df item target_name target_type
                  bins2 color2 fs2 descr_dict data_info) as H2.
    rewrite E1 in H1. rewrite E2 in H2. simpl in H1, H2. congruence. }
  subst r2. split; [reflexivity |].
  destruct (returned_call _ _ _ _ _ _ _ _ _ _ _ _ E1)
    as (col & tcol & y_min & y_max & lim & _ & Hitem & _ & _ & _ & _ & ->).
  destruct (returned_call _ _ _ _ _ _ _ _ _ _ _ _ E2)
    as (col' & tcol' & y_min' & y_max' & lim' & _ & Hitem' & _ & _ & _ & _ & ->).
  rewrite Hitem in Hitem'. injection Hitem' as <-.
  unfold shown. cbn [output]. split.
  - rewrite !printed_app, !printed_show_output. reflexivity.
  - rewrite !rendered_app, !length_app. do 2 f_equal.
    unfold show_output. destruct pyplot_backend; [| reflexivity].
    rewrite !rendered_app, !length_app. reflexivity.
Qed.

(** X15: the figure of a call that returns is 15 by 8, its panels are the
    places of one row in order, and all of them share their value axis. *)
Theorem figure_is_one_row_sharing_value_axis w df item target_name target_type
    bins color fs descr_dict data_info r w' :
  num_variable_analysis df item target_name target_type bins color fs
                        descr_dict data_info w = (inr r, w') ->
  exists fig,
    produced w w' fig /\
    figsize fig = Some (15, 8)%Z /\
    Forall (fun ax => shares_y ax = true) (panels fig) /\
    map geometry (panels fig)
    = map (fun i => (1, length (panels fig), S i)%nat) (seq 0 (length (panels fig))).
Proof.
  intros E.
  destruct (returned_call _ _ _ _ _ _ _ _ _ _ _ _ E)
    as (col & tcol & y_min & y_max & lim & _ & _ & _ & _ & _ & _ & ->).
  eexists. split.
  - apply produced_shown; [apply rendered_report | apply rendered_conclusion].
  - unfold profile_figure. destruct (item =? target_name); simpl.
    + repeat split; repeat constructor.
    + destruct (target_type =? "numeric");
        [destruct r as [[p s] |] |]; repeat split; repeat constructor.
Qed.

(** X2: a call that raises after the check of [target_type] has rendered
    nothing and has not shown its figure: the figure made on line 69 is
    left open in pyplot, on top of the figures that were open. *)
Theorem raising_call_leaves_figure_open w df item target_name target_type
    bins color fs descr_dict data_info e w' :
  valid_target_type target_type ->
  num_variable_analysis df item target_name target_type bins color fs
                        descr_dict data_info w = (inl e, w') ->
  rendered (output w') = rendered (output w) /\
  exists fig, figures w' = fig :: figures w.
Proof.
  intros Hvalid E.
  destruct (raised_call _ _ _ _ _ _ _ _ _ _ _ _ Hvalid E)
    as (o & (_ & Ho & fig & Hfig & _) & Hr).
  split; [| eauto].
  rewrite Ho, rendered_app, Hr. apply app_nil_r.
Qed.

(** X4: when [target_name] is not a column of the table and differs from
    [item], the call raises before it prints anything, whatever [item] is,
    and leaves its figure open. *)
Theorem unknown_target_raises_before_printing w df item target_name target_type
    bins color fs descr_dict data_info :
  valid_target_type target_type ->
  item <> target_name ->
  frames w df !! target_name = None ->
  exists e w' fig,
    num_variable_analysis df item target_name target_type bins color fs
                          descr_dict data_info w = (inl e, w') /\
    output w' = output w /\
    figures w' = fig :: figures w.
Proof.
  intros Hvalid Hne Htarget.
  assert (H : exists e w',
             num_variable_analysis df item target_name target_type bins color fs
                                   descr_dict data_info w = (inl e, w') /\
             broke_off w [] w').
  { destruct (frames w df !! item) as [col |] eqn:Hitem.
    2: { eexists _, _. split; [apply raise_unknown_item; assumption |].
         apply broke_off_blank. }
    destruct (value_range col) as [e | [y_min y_max]] eqn:Hrange.
    { destruct (raise_in_range w df item target_name target_type col e bins color
                  fs descr_dict data_info Hvalid Hitem Hrange) as (w' & E & Hw).
      eauto. }
    destruct (axis_limits y_min y_max) as [e | lim] eqn:Hlim.
    { destruct (raise_in_limits w df item target_name target_type col y_min y_max
                  e bins color fs descr_dict data_info Hvalid Hitem Hrange Hlim)
        as (w' & E & Hw).
      eauto. }
    destruct (raise_unknown_target w df item target_name target_type col
                y_min y_max lim bins color fs descr_dict data_info
                Hvalid Hitem Hrange Hlim Hne Htarget) as (w' & E & Hw).
    eauto. }
  destruct H as (e & w' & E & _ & Ho & fig & Hfig & _).
  exists e, w', fig. split; [exact E | split; [| exact Hfig]].
  rewrite Ho. apply app_nil_r.
Qed.


(** X11: with a categorical target and two distinct columns, the third
    panel of the figure of a call that returns holds one call of
    [sns.kdeplot] for each distinct value of the target, in the order in
    which [unique] gives them: the call for a value is handed the rows of
    [item] whose target equals the value, vertical, and its label is the
    value, a colon, and the number of rows whose target equals the value.
    When there is a value at all, the panel is titled [item] and its
    legend is one point smaller than the font of the call. *)
Theorem third_panel_of_categorical_target_plots_each_value w df item
    target_name (col tcol : Series) bins color fs descr_dict data_info r w' :
  item <> target_name ->
  frames w df !! item = Some col ->
  frames w df !! target_name = Some tcol ->
  num_variable_analysis df item target_name "categorical" bins color fs
                        descr_dict data_info w = (inr r, w') ->
  exists fig p3,
    produced w w' fig /\
    panels fig !! 2%nat = Some p3 /\
    plots p3
    = map (fun v =>
             KdePlot (select_rows (map (fun c => cell_eq c v) tcol) col) true
                     [Val v; Lit ": ";
                      Lit (show_nat (length (List.filter (fun b => b)
                                               (map (fun c => cell_eq c v) tcol))))])
          (series_unique tcol) /\
    (series_unique tcol <> [] ->
     title p3 = Some ([Lit item], fs) /\ legend p3 = Some (fs - 1)%Z).
Proof.
  intros Hne Hitem Htarget E.
  destruct (returned_call _ _ _ _ _ _ _ _ _ _ _ _ E)
    as (col' & tcol' & y_min & y_max & lim & _ & Hitem' & Htarget' & _ & _ & _ & ->).
  rewrite Hitem in Hitem'. injection Hitem' as <-.
  rewrite Htarget in Htarget'. injection Htarget' as <-.
  eexists. eexists. split.
  - apply produced_shown; [apply rendered_report | apply rendered_conclusion].
  - unfold profile_figure. apply String.eqb_neq in Hne. rewrite Hne. simpl.
    split; [reflexivity |]. split; [reflexivity |].
    intros Hvalues. simpl. destruct (series_unique tcol); [congruence |].
    split; reflexivity.
Qed.

End Correctness.

(** ** The theorems at work on the sample tables *)

Import FloatLib.
Import FloatSamples.

(** The sample of the specification: [age] has one missing entry, and the
    coefficients of [age] and [price] over the three complete rows lie
    between -1 and 1. *)
Example sample_missing_values : isna_sum age = 1%nat.
Proof. vm_compute. reflexivity. Qed.

Example sample_coefficients_in_unit_interval :
  match fst (num_variable_analysis 1%positive "age" "price" "numeric"
                                   (BinCount 100) maroon 14 None InfoNone start) with
  | inr (Some (p, s)) =>
      ((-1 <=? p) && (p <=? 1) && (-1 <=? s) && (s <=? 1))%float = true
  | _ => False
  end.
Proof. vm_compute. reflexivity. Qed.

(** A table without rows: the minimum and the maximum are NaN, and line 77
    raises once the histogram call is made; nothing is printed and the
    figure stays open. *)
Example table_without_rows_raises_on_line_77 :
  let res := num_variable_analysis 1%positive "age" "price" "categorical"
               (BinCount 100) maroon 14 None InfoNone no_rows in
  fst res = inl (ValueError "Axis limits cannot be NaN or Inf") /\
  output (snd res) = [] /\
  map (fun fig => map plots (panels fig)) (figures (snd res))
  = [[[HistPlot [] (BinCount 100) true maroon]; []; []]].
Proof. vm_compute. repeat split. Qed.

(** A column whose entries are all missing: line 77 raises before the
    column of the target is looked up, so that a target that is not in
    the table goes unnoticed. *)
Example column_without_values_raises_before_target_is_read :
  let res := num_variable_analysis 1%positive "age" "weight" "numeric"
               (BinCount 100) maroon 14 None InfoNone unobserved in
  frames unobserved 1%positive !! "weight" = None /\
  fst res = inl (ValueError "Axis limits cannot be NaN or Inf").
Proof. vm_compute. split; reflexivity. Qed.

(** On a backend that cannot show, a call that returns leaves its figure
    open on top of the one that was, and renders nothing. *)
Example figure_stays_open_without_display :
  let w' := snd (num_variable_analysis (L := float_lib_on Agg) 1%positive
                   "age" "price" "numeric" (BinCount 100) maroon 14 None InfoNone
                   later_without_display) in
  length (figures w') = 2%nat /\ rendered (output w') = [].
Proof. vm_compute. split; reflexivity. Qed.

(** A column of 64-bit integers whose maximum and minimum are more than
    [2^63 - 1] apart: the difference of line 70 wraps around to a negative
    number, and the limits of lines 71-72 fall inside the observed range
    instead of around it. *)
Example wide_integer_column_wraps :
  series_min (Lib := Int64Lib.int64_lib) Int64Lib.wide
  = inr (Int64 (-9000000000000000000)) /\
  series_max (Lib := Int64Lib.int64_lib) Int64Lib.wide
  = inr (Int64 9000000000000000000) /\
  np_sub (Int64 9000000000000000000) (Int64 (-9000000000000000000))
  = Int64 (-446744073709551616) /\
  match value_range (L := Int64Lib.int64_lib) Int64Lib.wide with
  | inr (y_min, y_max) =>
      ((-9000000000000000000 <? y_min) && (y_max <? 9000000000000000000))%float
      = true
  | inl _ => False
  end.
Proof. vm_compute. repeat split. Qed.

(** C1, the claim as stated, on a column without variation: the call
    returns a pair, and its two components are NaN, which is not between
    -1 and 1. *)
Lemma constant_column_coefficients_outside_unit_interval :
  let res := num_variable_analysis 1%positive "level" "price" "numeric"
               (BinCount 100) maroon 14 None InfoNone flat in
  fst res = inr (Some (nan, nan)) /\
  ((-1 <=? nan) && (nan <=? 1))%float = false.
Proof. vm_compute. split; reflexivity. Qed.



(** A call on the concrete tables returns: the hypothesis of the
    statements about calls that return is met there. *)
Ltac run_call E :=
  match goal with
  | |- context [num_variable_analysis ?df ?i ?t ?k ?b ?c ?f ?d ?n ?w] =>
      destruct (num_variable_analysis df i t k b c f d n w) as [[?e | ?r] ?w'] eqn:E;
      [apply (f_equal fst) in E; vm_compute in E; discriminate E |]
  end.

Lemma numeric_target_returns_coefficient_pair_witness :
  "age" <> "price" /\
  frames start 1%positive !! "age" = Some age /\
  frames start 1%positive !! "price" = Some price /\
  exists r w',
    num_variable_analysis 1%positive "age" "price" "numeric" (BinCount 100)
                          maroon 14 None InfoNone start = (inr r, w') /\
    exists pearson spearman,
      coefficient Pearson [(20, 10); (25, 20); (40, 40)]%float = inr pearson /\
      coefficient Spearman [(20, 10); (25, 20); (40, 40)]%float = inr spearman /\
      r = Some (pearson, spearman).
Proof.
  assert (Hne : "age" <> "price") by discriminate.
  assert (Hitem : frames start 1%positive !! "age" = Some age) by reflexivity.
  assert (Htarget : frames start 1%positive !! "price" = Some price) by reflexivity.
  split; [exact Hne | split; [exact Hitem | split; [exact Htarget |]]].
  run_call E. exists r, w'. split; [reflexivity |].
  exact (numeric_target_returns_coefficient_pair start 1%positive "age" "price"
           age price (BinCount 100) maroon 14 None InfoNone r w'
           Hne Hitem Htarget E).
Defined.

Lemma invalid_target_type_raises_witness :
  ~ valid_target_type "ordinal" /\
  num_variable_analysis 1%positive "age" "price" "ordinal" (BinCount 100) maroon 14
                        None InfoNone later
  = (inl (AssertionError
            "Please define `target_type` as 'numeric' or 'categorical'"), later).
Proof.
  assert (H : ~ valid_target_type "ordinal") by (intros [H | H]; discriminate H).
  split; [exact H |].
  apply (invalid_target_type_raises later 1%positive "age" "price" "ordinal"
           (BinCount 100) maroon 14 None InfoNone H).
Defined.

Lemma same_column_returns_none_witness :
  valid_target_type "categorical" /\
  exists r w',
    num_variable_analysis 1%positive "age" "age" "categorical"
                          (BinEdges [0; 50]%float) maroon 12 notes units start
    = (inr r, w') /\
    r = None.
Proof.
  assert (Hvalid : valid_target_type "categorical") by (right; reflexivity).
  split; [exact Hvalid |].
  run_call E. exists r, w'. split; [reflexivity |].
  exact (same_column_returns_none start 1%positive "age" "categorical"
           (BinEdges [0; 50]%float) maroon 12 notes units r w' Hvalid E).
Defined.

Lemma categorical_target_returns_none_witness :
  "age" <> "price" /\
  frames start 1%positive !! "age" = Some age /\
  exists r w',
    num_variable_analysis 1%positive "age" "price" "categorical" (BinCount 100)
                          maroon 14 notes units start = (inr r, w') /\
    r = None /\
    exists fig,
      output w' = output start
                  ++ statistics_output "age" age units
                  ++ show_output (figures start) fig
                  ++ conclusion_output (annotation notes "age") ++ [closing].
Proof.
  assert (Hne : "age" <> "price") by discriminate.
  assert (Hitem : frames start 1%positive !! "age" = Some age) by reflexivity.
  split; [exact Hne | split; [exact Hitem |]].
  run_call E. exists r, w'. split; [reflexivity |].
  exact (categorical_target_returns_none start 1%positive "age" "price" age
           (BinCount 100) maroon 14 notes units r w' Hne Hitem E).
Defined.

Lemma missing_count_when_info_unavailable_witness :
  frames start 1%positive !! "age" = Some age /\
  info_unavailable units "age" /\
  exists r w' rest,
    num_variable_analysis 1%positive "age" "price" "numeric" (BinCount 100)
                          maroon 14 None units start = (inr r, w') /\
    output w' = output start
                ++ header_line "age"
                   :: Text [Lit "There are "; Lit "1"; Lit " missing values in '";
                            Lit "age"; Lit "'"; Lit nl; Lit "."; Lit nl]
                   :: rest.
Proof.
  assert (Hitem : frames start 1%positive !! "age" = Some age) by reflexivity.
  assert (Hinfo : info_unavailable units "age") by reflexivity.
  split; [exact Hitem | split; [exact Hinfo |]].
  run_call E.
  destruct (missing_count_when_info_unavailable start 1%positive "age" "price"
              "numeric" age (BinCount 100) maroon 14 None units Hitem Hinfo)
    as (Hprints & _).
  destruct (Hprints r w' E) as (rest & Ho).
  exists r, w', rest. split; [reflexivity | exact Ho].
Defined.

Lemma conclusion_follows_annotation_witness :
  exists r w' body,
    num_variable_analysis 1%positive "age" "price" "numeric" (BinCount 100)
                          maroon 14 notes InfoNone later = (inr r, w') /\
    Forall (fun x => is_conclusion x = false) (body ++ [closing]) /\
    output w' = output later ++ body
                ++ [Text [Lit ">>> CONCLUSION:"; Lit " ";
                          Lit "skewed to the right"; Lit nl]]
                ++ [closing].
Proof.
  run_call E.
  destruct (conclusion_follows_annotation later 1%positive "age" "price" "numeric"
              (BinCount 100) maroon 14 notes InfoNone)
    as (Hprints & _).
  destruct (Hprints r w' E) as (body & Hbody & Ho).
  exists r, w', body. split; [reflexivity | split; [exact Hbody | exact Ho]].
Defined.

Lemma figure_has_three_or_two_panels_witness :
  valid_target_type "categorical" /\
  exists r w' fig,
    num_variable_analysis 1%positive "age" "price" "categorical" (BinCount 100)
                          maroon 14 None InfoNone later = (inr r, w') /\
    produced later w' fig /\
    length (panels fig) = 3%nat.
Proof.
  assert (Hvalid : valid_target_type "categorical") by (right; reflexivity).
  assert (Hne : "age" <> "price") by discriminate.
  split; [exact Hvalid |].
  run_call E.
  destruct (figure_has_three_or_two_panels later 1%positive "age" "price"
              "categorical" (BinCount 100) maroon 14 None InfoNone r w' Hvalid E)
    as (fig & Hfig & Hthree & _).
  exists r, w', fig. split; [reflexivity | split; [exact Hfig | exact (Hthree Hne)]].
Defined.


Lemma result_independent_of_presentation_witness :
  frames start 1%positive = frames later 1%positive /\
  fst (num_variable_analysis 1%positive "age" "price" "numeric" (BinCount 100)
                             maroon 14 None InfoNone start)
  = fst (num_variable_analysis 1%positive "age" "price" "numeric"
                               (BinEdges [0; 25; 50]%float)
                               (ColorSeq [0.5; 0; 0]%float) 10 notes units later).
Proof.
  split; [reflexivity |].
  apply (result_independent_of_presentation start later 1%positive "age" "price"
           "numeric"); reflexivity.
Defined.

(** ** The further properties at work on the sample tables *)

Lemma info_row_replaces_missing_count_witness :
  frames start 1%positive !! "age" = Some age /\
  ({[ "age" := [("unit", "years")] ]} : gmap string info_row) !! "age"
  = Some [("unit", "years")] /\
  exists r w' rest,
    num_variable_analysis 1%positive "age" "price" "numeric" (BinCount 100)
                          maroon 14 None age_info start = (inr r, w') /\
    output w' = output start
                ++ [Text [Lit "==== "; Lit "age"; Lit " ===="; Lit nl];
                    Display (InfoTable "age" [("unit", "years")]);
                    Text [Lit ">>> Statistics:"; Lit nl];
                    Display (DescribeTable age)]
                ++ rest /\
    Forall (fun x => is_missing_count x = false) rest.
Proof.
  assert (Hitem : frames start 1%positive !! "age" = Some age) by reflexivity.
  assert (Hrow : ({[ "age" := [("unit", "years")] ]} : gmap string info_row) !! "age"
                 = Some [("unit", "years")]) by reflexivity.
  split; [exact Hitem | split; [exact Hrow |]].
  run_call E.
  destruct (info_row_replaces_missing_count start 1%positive "age" "price" "numeric"
              age (BinCount 100) maroon 14 None _ _ r w' Hitem Hrow E)
    as (rest & Ho & Hrest).
  exists r, w', rest. split; [reflexivity | split; [exact Ho | exact Hrest]].
Defined.

Lemma unknown_item_leaves_blank_figure_witness :
  valid_target_type "categorical" /\
  frames later 1%positive !! "height" = None /\
  num_variable_analysis 1%positive "height" "weight" "categorical" (BinCount 100)
                        maroon 14 notes units later
  = (inl (KeyError "height"),
     mkWorld (frames later)
             (mkFigure (Some (15, 8)%Z) (new_grid 1 3 true) 2 :: figures later)
             (output later)).
Proof.
  assert (Hvalid : valid_target_type "categorical") by (right; reflexivity).
  assert (Hitem : frames later 1%positive !! "height" = None) by reflexivity.
  split; [exact Hvalid | split; [exact Hitem |]].
  apply (unknown_item_leaves_blank_figure later 1%positive "height" "weight"
           "categorical" (BinCount 100) maroon 14 notes units Hvalid Hitem).
Defined.

Lemma printed_coefficients_are_returned_witness :
  "age" <> "price" /\
  frames later 1%positive !! "age" = Some age /\
  exists r w' p s rest,
    num_variable_analysis 1%positive "age" "price" "numeric" (BinCount 100)
                          maroon 14 None InfoNone later = (inr r, w') /\
    r = Some (p, s) /\
    output w' = output later
                ++ statistics_output "age" age InfoNone
                ++ [Text [Lit ">>> Correlation:"; Lit nl];
                    Text [Lit "  Pearson's  correlation coefficient between '";
                          Lit "age"; Lit "' and '"; Lit "price"; Lit "' is ";
                          Num3g p; Lit "."; Lit nl];
                    Text [Lit "  Spearman's correlation coefficient between '";
                          Lit "age"; Lit "' and '"; Lit "price"; Lit "' is ";
                          Num3g s; Lit "."; Lit nl; Lit nl; Lit nl]]
                ++ rest.
Proof.
  assert (Hne : "age" <> "price") by discriminate.
  assert (Hitem : frames later 1%positive !! "age" = Some age) by reflexivity.
  split; [exact Hne | split; [exact Hitem |]].
  run_call E.
  destruct (printed_coefficients_are_returned later 1%positive "age" "price" age
              (BinCount 100) maroon 14 None InfoNone r w' Hne Hitem E)
    as (p & s & rest & Hr & Ho).
  exists r, w', p, s, rest. split; [reflexivity | split; [exact Hr | exact Ho]].
Defined.

Lemma first_panel_is_histogram_witness :
  frames start 1%positive !! "age" = Some age /\
  exists r w' fig p1,
    num_variable_analysis 1%positive "age" "price" "categorical"
                          (BinEdges [0; 25; 50]%float) maroon 12 None InfoNone start
    = (inr r, w') /\
    produced start w' fig /\
    panels fig !! 0%nat = Some p1 /\
    plots p1 = [HistPlot age (BinEdges [0; 25; 50]%float) true maroon] /\
    xticks_rotation p1 = Some 90%Z /\
    title p1 = Some ([Lit "Distribition of "; Lit "age"], 12%Z) /\
    ylabel p1 = Some "age" /\ legend p1 = None.
Proof.
  assert (Hitem : frames start 1%positive !! "age" = Some age) by reflexivity.
  split; [exact Hitem |].
  run_call E.
  destruct (first_panel_is_histogram start 1%positive "age" "price" "categorical"
              age (BinEdges [0; 25; 50]%float) maroon 12 None InfoNone r w'
              Hitem E) as (fig & p1 & H).
  exists r, w', fig, p1. split; [reflexivity | exact H].
Defined.

Lemma second_panel_is_boxen_plot_witness :
  frames start 1%positive !! "age" = Some age /\
  frames start 1%positive !! "price" = Some price /\
  exists r w' fig p2,
    num_variable_analysis 1%positive "age" "price" "categorical" (BinCount 100)
                          maroon 14 None InfoNone start = (inr r, w') /\
    produced start w' fig /\
    panels fig !! 1%nat = Some p2 /\
    title p2 = Some ([Lit "age"], 14%Z) /\
    ylabel p2 = Some "" /\
    plots p2 = [BoxenPlot (Some price) age "v" None] /\
    xticks_rotation p2 = Some 90%Z.
Proof.
  assert (Hitem : frames start 1%positive !! "age" = Some age) by reflexivity.
  assert (Htarget : frames start 1%positive !! "price" = Some price) by reflexivity.
  split; [exact Hitem | split; [exact Htarget |]].
  run_call E.
  destruct (second_panel_is_boxen_plot start 1%positive "age" "price" "categorical"
              age price (BinCount 100) maroon 14 None InfoNone r w'
              Hitem Htarget E)
    as (fig & p2 & Hfig & Hp2 & Htitle & Hlabel & _ & Hcat).
  destruct (Hcat eq_refl) as [Hplots Hticks].
  exists r, w', fig, p2. split; [reflexivity |]. auto 10.
Defined.

Lemma third_panel_of_numeric_target_is_scatter_witness :
  "age" <> "price" /\
  frames start 1%positive !! "age" = Some age /\
  frames start 1%positive !! "price" = Some price /\
  exists r w' p s fig p3,
    num_variable_analysis 1%positive "age" "price" "numeric" (BinCount 100)
                          maroon 14 None InfoNone start = (inr r, w') /\
    r = Some (p, s) /\
    produced start w' fig /\
    panels fig !! 2%nat = Some p3 /\
    plots p3 = [LinePlot price age "o" 3 maroon maroon] /\
    xticks_rotation p3 = Some 90%Z /\
    title p3 = Some ([Lit "Spearman's corr.coeff. = "; Num3g s; Lit nl;
                      Lit "Pearson's corr.coeff. = "; Num3g p], 14%Z) /\
    legend p3 = None.
Proof.
  assert (Hne : "age" <> "price") by discriminate.
  assert (Hitem : frames start 1%positive !! "age" = Some age) by reflexivity.
  assert (Htarget : frames start 1%positive !! "price" = Some price) by reflexivity.
  split; [exact Hne | split; [exact Hitem | split; [exact Htarget |]]].
  run_call E.
  destruct (third_panel_of_numeric_target_is_scatter start 1%positive "age" "price"
              age price (BinCount 100) maroon 14 None InfoNone r w'
              Hne Hitem Htarget E) as (p & s & fig & p3 & H).
  exists r, w', p, s, fig, p3. split; [reflexivity | exact H].
Defined.

Lemma appearance_only_changes_figure_witness :
  exists r1 w1 r2 w2,
    num_variable_analysis 1%positive "age" "price" "numeric" (BinCount 100)
                          maroon 14 notes InfoNone later = (inr r1, w1) /\
    num_variable_analysis 1%positive "age" "price" "numeric"
                          (BinEdges [0; 25; 50]%float)
                          (ColorSeq [0.5; 0; 0]%float) 10 notes InfoNone later
    = (inr r2, w2) /\
    r1 = r2 /\
    printed (output w1) = printed (output w2) /\
    length (rendered (output w1)) = length (rendered (output w2)).
Proof.
  destruct (num_variable_analysis 1%positive "age" "price" "numeric" (BinCount 100)
              maroon 14 notes InfoNone later) as [[e1 | r1] w1] eqn:E1;
    [apply (f_equal fst) in E1; vm_compute in E1; discriminate E1 |].
  destruct (num_variable_analysis 1%positive "age" "price" "numeric"
              (BinEdges [0; 25; 50]%float)
              (ColorSeq [0.5; 0; 0]%float) 10 notes InfoNone later)
    as [[e2 | r2] w2] eqn:E2;
    [apply (f_equal fst) in E2; vm_compute in E2; discriminate E2 |].
  exists r1, w1, r2, w2. split; [reflexivity | split; [reflexivity |]].
  exact (appearance_only_changes_figure later 1%positive "age" "price" "numeric"
           (BinCount 100) maroon 14 (BinEdges [0; 25; 50]%float)
           (ColorSeq [0.5; 0; 0]%float) 10 notes InfoNone r1 w1 r2 w2 E1 E2).
Defined.

Lemma figure_is_one_row_sharing_value_axis_witness :
  exists r w' fig,
    num_variable_analysis 1%positive "age" "age" "numeric" (BinCount 100)
                          maroon 14 None InfoNone start = (inr r, w') /\
    produced start w' fig /\
    figsize fig = Some (15, 8)%Z /\
    Forall (fun ax => shares_y ax = true) (panels fig) /\
    map geometry (panels fig)
    = map (fun i => (1, length (panels fig), S i)%nat) (seq 0 (length (panels fig))).
Proof.
  run_call E.
  destruct (figure_is_one_row_sharing_value_axis start 1%positive "age" "age"
              "numeric" (BinCount 100) maroon 14 None InfoNone r w' E)
    as (fig & H).
  exists r, w', fig. split; [reflexivity | exact H].
Defined.

(** A call on the concrete tables raises. *)
Ltac raise_call E :=
  match goal with
  | |- context [num_variable_analysis ?df ?i ?t ?k ?b ?c ?f ?d ?n ?w] =>
      destruct (num_variable_analysis df i t k b c f d n w) as [[?e | ?r] ?w'] eqn:E;
      [| apply (f_equal fst) in E; vm_compute in E; discriminate E]
  end.

Lemma raising_call_leaves_figure_open_witness :
  valid_target_type "categorical" /\
  exists e w',
    num_variable_analysis 1%positive "age" "price" "categorical" (BinCount 100)
                          maroon 14 None InfoNone no_rows = (inl e, w') /\
    rendered (output w') = rendered (output no_rows) /\
    exists fig, figures w' = fig :: figures no_rows.
Proof.
  assert (Hvalid : valid_target_type "categorical") by (right; reflexivity).
  split; [exact Hvalid |].
  raise_call E. exists e, w'. split; [reflexivity |].
  exact (raising_call_leaves_figure_open no_rows 1%positive "age" "price"
           "categorical" (BinCount 100) maroon 14 None InfoNone e w' Hvalid E).
Defined.

Lemma unknown_target_raises_before_printing_witness :
  valid_target_type "numeric" /\
  "age" <> "weight" /\
  frames later 1%positive !! "weight" = None /\
  exists e w' fig,
    num_variable_analysis 1%positive "age" "weight" "numeric" (BinCount 100)
                          maroon 14 notes units later = (inl e, w') /\
    output w' = output later /\
    figures w' = fig :: figures later.
Proof.
  assert (Hvalid : valid_target_type "numeric") by (left; reflexivity).
  assert (Hne : "age" <> "weight") by discriminate.
  assert (Htarget : frames later 1%positive !! "weight" = None) by reflexivity.
  split; [exact Hvalid | split; [exact Hne | split; [exact Htarget |]]].
  apply (unknown_target_raises_before_printing later 1%positive "age" "weight"
           "numeric" (BinCount 100) maroon 14 notes units Hvalid Hne Htarget).
Defined.

Lemma third_panel_of_categorical_target_plots_each_value_witness :
  "age" <> "price" /\
  frames start 1%positive !! "age" = Some age /\
  frames start 1%positive !! "price" = Some price /\
  exists r w' fig p3,
    num_variable_analysis 1%positive "age" "price" "categorical" (BinCount 100)
                          maroon 14 None InfoNone start = (inr r, w') /\
    produced start w' fig /\
    panels fig !! 2%nat = Some p3 /\
    plots p3
    = [KdePlot [20%float] true [Val 10%float; Lit ": "; Lit "1"];
       KdePlot [25%float] true [Val 20%float; Lit ": "; Lit "1"];
       KdePlot [nan] true [Val 30%float; Lit ": "; Lit "1"];
       KdePlot [40%float] true [Val 40%float; Lit ": "; Lit "1"]] /\
    title p3 = Some ([Lit "age"], 14%Z) /\ legend p3 = Some 13%Z.
Proof.
  assert (Hne : "age" <> "price") by discriminate.
  assert (Hitem : frames start 1%positive !! "age" = Some age) by reflexivity.
  assert (Htarget : frames start 1%positive !! "price" = Some price) by reflexivity.
  split; [exact Hne | split; [exact Hitem | split; [exact Htarget |]]].
  run_call E.
  destruct (third_panel_of_categorical_target_plots_each_value start 1%positive
              "age" "price" age price (BinCount 100) maroon 14 None InfoNone r w'
              Hne Hitem Htarget E)
    as (fig & p3 & Hfig & Hp3 & Ha & Hdecor).
  assert (Hvalues : series_unique price <> []) by discriminate.
  destruct (Hdecor Hvalues) as [Ht Hl].
  exists r, w', fig, p3.
  split; [reflexivity | split; [exact Hfig | split; [exact Hp3 |
    split; [exact Ha | split; [exact Ht | exact Hl]]]]].
Defined.

(** A table whose target is text, in a session of its own. *)
Section TextTarget.

#[local] Existing Instance ObjectLib.object_lib.


End TextTarget.
